(** * App_alumnos: the school records manager of [app.py]

    A shallow embedding of the SQLite store behind [escuela.db], of
    [run_query], of [generate_report_data] and of the handlers inside
    [main] that write to the store or export a report, followed by the
    properties of those operations. *)

From Stdlib Require Import ZArith Floats.
From stdpp Require Import base option list sorting gmap strings pretty.

Local Open Scope string_scope.
Local Open Scope Z_scope.
Local Open Scope list_scope.

(** ** Text order

    SQLite compares TEXT values with the BINARY collation (byte by byte,
    a proper prefix first); pandas sorts group keys with Python's string
    order, which agrees with it on UTF-8 text.  [String.compare] is that
    order on byte strings. *)

Definition str_le (s1 s2 : string) : Prop := String.compare s1 s2 ≠ Gt.

#[global] Instance str_le_dec s1 s2 : Decision (str_le s1 s2).
Proof. unfold str_le. apply _. Defined.

(** ** Rows of the four tables created by [init_db] *)

Record alumno := mk_alumno {
  al_id : Z;
  al_nombre : string;
  al_edad : Z;
  al_grado : string }.

Record materia := mk_materia {
  ma_id : Z;
  ma_nombre : string;
  ma_descripcion : string }.

Record asignacion := mk_asignacion {
  as_id : Z;
  as_alumno_id : Z;
  as_materia_id : Z }.

Record calificacion := mk_calificacion {
  ca_id : Z;
  ca_alumno_id : Z;
  ca_materia_id : Z;
  ca_nota : float;
  ca_fecha : string }.

(** The database file.  Each table keeps its rows in rowid order.  The
    four [seq_] counters are the entries of [sqlite_sequence]: a column
    declared [INTEGER PRIMARY KEY AUTOINCREMENT] gets the largest id ever
    handed out plus one, and never reuses the id of a deleted row.  The
    schema declares FOREIGN KEY clauses, but the connections never issue
    [PRAGMA foreign_keys = ON], so SQLite does not enforce them. *)

Record DB := mk_DB {
  alumnos : list alumno;
  materias : list materia;
  asignaciones : list asignacion;
  calificaciones : list calificacion;
  seq_alumnos : Z;
  seq_materias : Z;
  seq_asignaciones : Z;
  seq_calificaciones : Z }.

(** [init_db] on a fresh file: [CREATE TABLE IF NOT EXISTS] four times. *)
Definition init_db : DB := mk_DB [] [] [] [] 0 0 0 0.

(** ** The statements [main] sends through [run_query]

    One constructor per SQL text that changes the store, with the bound
    parameters as arguments. *)

Inductive sentencia :=
  | INSERT_alumnos (nombre : string) (edad : Z) (grado : string)
  | UPDATE_alumnos (nombre : string) (edad : Z) (grado : string) (id : Z)
  | DELETE_alumnos (id : Z)
  | DELETE_asignaciones (alumno_id : Z)
  | DELETE_calificaciones (alumno_id : Z)
  | INSERT_materias (nombre descripcion : string)
  | DELETE_materias (id : Z)
  | INSERT_asignaciones (alumno_id materia_id : Z)
  | INSERT_calificaciones (alumno_id materia_id : Z) (nota : float).

Definition set_alumnos (f : list alumno → list alumno) (d : DB) : DB :=
  mk_DB (f (alumnos d)) (materias d) (asignaciones d) (calificaciones d)
        (seq_alumnos d) (seq_materias d) (seq_asignaciones d)
        (seq_calificaciones d).
Definition set_materias (f : list materia → list materia) (d : DB) : DB :=
  mk_DB (alumnos d) (f (materias d)) (asignaciones d) (calificaciones d)
        (seq_alumnos d) (seq_materias d) (seq_asignaciones d)
        (seq_calificaciones d).
Definition set_asignaciones (f : list asignacion → list asignacion)
    (d : DB) : DB :=
  mk_DB (alumnos d) (materias d) (f (asignaciones d)) (calificaciones d)
        (seq_alumnos d) (seq_materias d) (seq_asignaciones d)
        (seq_calificaciones d).
Definition set_calificaciones (f : list calificacion → list calificacion)
    (d : DB) : DB :=
  mk_DB (alumnos d) (materias d) (asignaciones d) (f (calificaciones d))
        (seq_alumnos d) (seq_materias d) (seq_asignaciones d)
        (seq_calificaciones d).

(** [c.execute(query, params)] for the statements above.  [hoy] is the
    value of [CURRENT_DATE], the default of [calificaciones.fecha]. *)
Definition execute (hoy : string) (q : sentencia) (d : DB) : DB :=
  match q with
  | INSERT_alumnos nombre edad grado =>
      let id := seq_alumnos d + 1 in
      mk_DB (alumnos d ++ [mk_alumno id nombre edad grado]) (materias d)
            (asignaciones d) (calificaciones d)
            id (seq_materias d) (seq_asignaciones d) (seq_calificaciones d)
  | UPDATE_alumnos nombre edad grado id =>
      set_alumnos
        (fmap (λ a, if decide (al_id a = id)
                    then mk_alumno (al_id a) nombre edad grado else a)) d
  | DELETE_alumnos id =>
      set_alumnos (filter (λ a, al_id a ≠ id)) d
  | DELETE_asignaciones alumno_id =>
      set_asignaciones (filter (λ a, as_alumno_id a ≠ alumno_id)) d
  | DELETE_calificaciones alumno_id =>
      set_calificaciones (filter (λ c, ca_alumno_id c ≠ alumno_id)) d
  | INSERT_materias nombre descripcion =>
      let id := seq_materias d + 1 in
      mk_DB (alumnos d) (materias d ++ [mk_materia id nombre descripcion])
            (asignaciones d) (calificaciones d)
            (seq_alumnos d) id (seq_asignaciones d) (seq_calificaciones d)
  | DELETE_materias id =>
      set_materias (filter (λ m, ma_id m ≠ id)) d
  | INSERT_asignaciones alumno_id materia_id =>
      let id := seq_asignaciones d + 1 in
      mk_DB (alumnos d) (materias d)
            (asignaciones d ++ [mk_asignacion id alumno_id materia_id])
            (calificaciones d)
            (seq_alumnos d) (seq_materias d) id (seq_calificaciones d)
  | INSERT_calificaciones alumno_id materia_id nota =>
      let id := seq_calificaciones d + 1 in
      mk_DB (alumnos d) (materias d) (asignaciones d)
            (calificaciones d
               ++ [mk_calificacion id alumno_id materia_id nota hoy])
            (seq_alumnos d) (seq_materias d) (seq_asignaciones d) id
  end.

(** ** The world of one run of the script

    [escuela] is the content of [escuela.db]; [hoy] is today's date, what
    [CURRENT_DATE] yields; [confirmados] lists, oldest first, every state
    that a [conn.commit()] has made durable.  [run_query] opens its own
    connection, executes one statement, commits and closes, so each write
    adds one entry: these are the states that a reader on another
    connection, or a restart after the process stops, can find in the
    file. *)

Record estado := mk_estado {
  escuela : DB;
  hoy : string;
  confirmados : list DB }.

Inductive excepcion :=
  | KeyError (clave : string)
  | IndexError.

(** Handlers thread the world and may raise. *)
Definition M (A : Type) : Type := estado → estado * (excepcion + A).

#[global] Instance M_ret : MRet M := λ A x e, (e, inr x).
#[global] Instance M_bind : MBind M := λ A B f m e,
  match m e with
  | (e', inr x) => f x e'
  | (e', inl ex) => (e', inl ex)
  end.

Definition raise {A} (ex : excepcion) : M A := λ e, (e, inl ex).

(** [run_query(query, params)] with [return_data=False]: execute, commit,
    return [True].  The [except] branch, which reports the error and
    returns [False], is for failures of the SQLite engine itself; none of
    the statements above can violate a constraint (every [nombre] bound
    is a [str], foreign keys are not enforced), so on this store the
    call always succeeds. *)
Definition run_query (q : sentencia) : M bool := λ e,
  let d := execute (hoy e) q (escuela e) in
  (mk_estado d (hoy e) (confirmados e ++ [d]), inr true).

(** [run_query(query, params, return_data=True)]: the rows of a SELECT,
    given as a function of the store; nothing is committed. *)
Definition run_select {A} (consulta : DB → A) : M A := λ e,
  (e, inr (consulta (escuela e))).

(** ** Dictionaries built by comprehension

    [{nombre: id for id, nombre in data}]: a later pair with the same
    name replaces the id of an earlier one. *)
Definition dict_comp (data : list (Z * string)) : gmap string Z :=
  foldl (λ acc p, <[p.2 := p.1]> acc) ∅ data.

(** [d[k]], raising [KeyError] on a missing key. *)
Definition getitem (d : gmap string Z) (k : string) : M Z :=
  match d !! k with
  | Some v => mret v
  | None => raise (KeyError k)
  end.

(** [SELECT id, nombre FROM alumnos] and [SELECT id, nombre FROM materias] *)
Definition select_alumnos_id_nombre (d : DB) : list (Z * string) :=
  (λ a, (al_id a, al_nombre a)) <$> alumnos d.
Definition select_materias_id_nombre (d : DB) : list (Z * string) :=
  (λ m, (ma_id m, ma_nombre m)) <$> materias d.

Definition dict_alumnos (d : DB) : gmap string Z :=
  dict_comp (select_alumnos_id_nombre d).
Definition dict_materias (d : DB) : gmap string Z :=
  dict_comp (select_materias_id_nombre d).

(** ** Handlers of [main] that write to the store *)

(** "Guardar Alumno" (tab1). *)
Definition guardar_alumno (nombre : string) (edad : Z) (grado : string)
    : M unit :=
  run_query (INSERT_alumnos nombre edad grado);; mret ().

(** "Borrar Alumno" (tab3): the student row, then the rows that refer to
    it, one [run_query] each. *)
Definition borrar_alumno (id_sel : Z) : M unit :=
  run_query (DELETE_alumnos id_sel);;
  run_query (DELETE_asignaciones id_sel);;
  run_query (DELETE_calificaciones id_sel);;
  mret ().

(** "Crear Materia". *)
Definition crear_materia (nombre_mat desc_mat : string) : M unit :=
  run_query (INSERT_materias nombre_mat desc_mat);; mret ().

(** "Eliminar Materia": [df_mat] is [SELECT * FROM materias];
    [df_mat[df_mat['Nombre'] == del_materia]['ID'].values[0]] is the id of
    the first row with the chosen name, and indexing raises when there
    is none. *)
Definition eliminar_materia (del_materia : string) : M unit :=
  df_mat ← run_select materias;
  match df_mat with
  | [] => mret ()
  | _ =>
      match filter (λ m, ma_nombre m = del_materia) df_mat with
      | m :: _ => run_query (DELETE_materias (ma_id m));; mret ()
      | [] => raise IndexError
      end
  end.

(** The loop of "Guardar Asignaciones": one INSERT per selected name. *)
Fixpoint insertar_asignaciones (dict_materias : gmap string Z)
    (id_alumno : Z) (nuevas_asignaciones : list string) : M unit :=
  match nuevas_asignaciones with
  | [] => mret ()
  | materia_nombre :: resto =>
      id_mat ← getitem dict_materias materia_nombre;
      run_query (INSERT_asignaciones id_alumno id_mat);;
      insertar_asignaciones dict_materias id_alumno resto
  end.

(** "Guardar Asignaciones": delete everything the student had, insert
    what is selected. *)
Definition guardar_asignaciones (dict_materias : gmap string Z)
    (id_alumno : Z) (nuevas_asignaciones : list string) : M unit :=
  run_query (DELETE_asignaciones id_alumno);;
  insertar_asignaciones dict_materias id_alumno nuevas_asignaciones.

(** The section "Asignar Materias (Maestro)" for one click on the button:
    both dictionaries are rebuilt from the store, the student is picked
    by name in the select box, the subjects by name in the multiselect.
    With no student or no subject registered only a warning is shown. *)
Definition asignar_materias (alumno_sel : string)
    (nuevas_asignaciones : list string) : M unit :=
  alumnos ← run_select select_alumnos_id_nombre;
  materias ← run_select select_materias_id_nombre;
  match alumnos, materias with
  | _ :: _, _ :: _ =>
      id_alumno ← getitem (dict_comp alumnos) alumno_sel;
      guardar_asignaciones (dict_comp materias) id_alumno nuevas_asignaciones
  | _, _ => mret ()
  end.

(** "Guardar Nota". *)
Definition guardar_nota (id_alumno_calif id_mat_calif : Z) (nota : float)
    : M unit :=
  run_query (INSERT_calificaciones id_alumno_calif id_mat_calif nota);;
  mret ().

(** What a handler leaves in the file, and whether it raised. *)
Definition final {A} (m : M A) (e : estado) : DB := escuela (m e).1.
Definition resultado {A} (m : M A) (e : estado) : excepcion + A := (m e).2.

(** The subjects in a student's plan, one entry per stored row, in rowid
    order; and the plan as a set. *)
Definition plan (d : DB) (alumno_id : Z) : list Z :=
  as_materia_id <$> filter (λ a, as_alumno_id a = alumno_id) (asignaciones d).
Definition plan_set (d : DB) (alumno_id : Z) : gset Z :=
  list_to_set (plan d alumno_id).

(** ** The report of [generate_report_data] *)

(** A row of the report query: the columns Alumno, Materia, Calificacion
    and Fecha. *)
Record fila := mk_fila {
  Alumno : string;
  Materia : string;
  Calificacion : float;
  Fecha : string }.

(** [ORDER BY m.nombre, c.fecha DESC]: [r1] may come before [r2]. *)
Definition orden_boletin (r1 r2 : fila) : Prop :=
  match String.compare (Materia r1) (Materia r2) with
  | Lt => True
  | Eq => str_le (Fecha r2) (Fecha r1)
  | Gt => False
  end.

#[global] Instance orden_boletin_dec r1 r2 : Decision (orden_boletin r1 r2).
Proof. unfold orden_boletin. destruct (String.compare _ _); apply _. Defined.

(** [ORDER BY] as SQLite's sorter carries it out: rows that tie on the
    sort key stay in the order in which the join produced them.  Each
    row is put before the first row of the sorted rest that it may come
    before. *)
Fixpoint insertar {A} (R : A → A → Prop) `{∀ x y, Decision (R x y)}
    (x : A) (l : list A) : list A :=
  match l with
  | [] => [x]
  | y :: l' => if decide (R x y) then x :: l else y :: insertar R x l'
  end.

Definition ordenar {A} (R : A → A → Prop) `{∀ x y, Decision (R x y)}
    (l : list A) : list A :=
  foldr (insertar R) [] l.

(** The SELECT of [generate_report_data]: the student's grades, in
    rowid order, each joined with the student row and the subject row,
    then sorted. *)
Definition select_boletin (alumno_id : Z) (d : DB) : list fila :=
  ordenar orden_boletin
    (c ← filter (λ c, ca_alumno_id c = alumno_id) (calificaciones d);
     a ← filter (λ a, al_id a = ca_alumno_id c) (alumnos d);
     m ← filter (λ m, ma_id m = ca_materia_id c) (materias d);
     [mk_fila (al_nombre a) (ma_nombre m) (ca_nota c) (ca_fecha c)]).

(** A pandas DataFrame: column labels and rows.  [pd.DataFrame()] has
    neither; [.empty] holds when either axis has length zero. *)
Record DataFrame (R : Type) := mk_DataFrame {
  columns : list string;
  filas : list R }.
Arguments mk_DataFrame {R} _ _.
Arguments columns {R} _.
Arguments filas {R} _.

Definition DataFrame_vacio {R} : DataFrame R := mk_DataFrame [] [].

Definition empty {R} (df : DataFrame R) : bool :=
  match columns df, filas df with
  | [], _ | _, [] => true
  | _, _ => false
  end.

(** A row of the summary after [reset_index()]. *)
Record resumen := mk_resumen {
  r_Alumno : string;
  r_Materia : string;
  Promedio_Materia : float;
  Total_Notas : Z }.

(** The key of [groupby(['Alumno', 'Materia'])] and the order in which
    pandas lists the groups (sorted keys, pairs compared left to right). *)
Definition clave (r : fila) : string * string := (Alumno r, Materia r).

Definition clave_le (k1 k2 : string * string) : Prop :=
  match String.compare k1.1 k2.1 with
  | Lt => True
  | Eq => str_le k1.2 k2.2
  | Gt => False
  end.

#[global] Instance clave_le_dec k1 k2 : Decision (clave_le k1 k2).
Proof. unfold clave_le. destruct (String.compare _ _); apply _. Defined.

(** ['mean'] of a group, as pandas' [group_mean] computes it in binary64
    arithmetic: the scores are added in row order with Kahan's
    compensation ([sumx] is the running sum, [compensation] the error
    carried over, reset when it is not a number), and the sum is divided
    by their number.  A stored score is a number: SQLite keeps no NaN,
    and the entry form gives a value between 0 and 10. *)
Definition kahan (acc : float * float) (val : float) : float * float :=
  let '(sumx, compensation) := acc in
  let y := (val - compensation)%float in
  let t := (sumx + y)%float in
  let c := (t - sumx - y)%float in
  (t, if PrimFloat.is_nan c then 0%float else c).

Definition mean (xs : list float) : float :=
  ((foldl kahan (0, 0) xs).1
   / PrimFloat.of_uint63 (Uint63.of_Z (Z.of_nat (length xs))))%float.

Definition groupby_agg (rows : list fila) : list resumen :=
  (λ k, let grupo := filter (λ r, clave r = k) rows in
        mk_resumen k.1 k.2 (mean (Calificacion <$> grupo))
                   (Z.of_nat (length grupo)))
  <$> merge_sort clave_le (remove_dups (clave <$> rows)).

Definition generate_report_data (alumno_id : Z) (d : DB)
    : DataFrame fila * DataFrame resumen :=
  match select_boletin alumno_id d with
  | [] => (DataFrame_vacio, DataFrame_vacio)
  | data =>
      let df := mk_DataFrame ["Alumno"; "Materia"; "Calificacion"; "Fecha"]
                             data in
      let df_summary :=
        mk_DataFrame ["Alumno"; "Materia"; "Promedio_Materia"; "Total_Notas"]
                     (groupby_agg (filas df)) in
      (df, df_summary)
  end.

(** ** The workbook of the report tab *)

(** A cell of a sheet. *)
Inductive celda :=
  | Texto (s : string)
  | Real (x : float)
  | Entero (n : Z).

Definition celdas_fila (r : fila) : list celda :=
  [Texto (Alumno r); Texto (Materia r); Real (Calificacion r);
   Texto (Fecha r)].
Definition celdas_resumen (r : resumen) : list celda :=
  [Texto (r_Alumno r); Texto (r_Materia r); Real (Promedio_Materia r);
   Entero (Total_Notas r)].

(** A worksheet: its name, the header row and the data rows. *)
Record hoja := mk_hoja {
  sheet_name : string;
  encabezado : list string;
  cuerpo : list (list celda) }.

(** [df.to_excel(writer, sheet_name=..., index=...)]: one more sheet in
    the writer's workbook, after those already there.  With [index=True]
    pandas puts the row labels 0, 1, ... in a first column under an
    empty header cell. *)
Definition to_excel {R} (celdas : R → list celda) (df : DataFrame R)
    (sheet_name : string) (index : bool) (writer : list hoja) : list hoja :=
  writer ++
  [mk_hoja sheet_name
     (if index then "" :: columns df else columns df)
     (if index
      then imap (λ i r, Entero (Z.of_nat i) :: celdas r) (filas df)
      else celdas <$> filas df)].

(** The [with pd.ExcelWriter(buffer, ...) as writer] block. *)
Definition boletin_excel (df_all_notes : DataFrame fila)
    (df_summary : DataFrame resumen) : list hoja :=
  to_excel celdas_fila df_all_notes "Historial Completo" false
    (to_excel celdas_resumen df_summary "Resumen" false []).

(** The report tab after [generate_report_data]: the workbook offered for
    download, or nothing but a warning when [df_all_notes.empty].  (The
    CSV offered next to it is [csv_summary] below.) *)
Definition exportar_boletin (df_all_notes : DataFrame fila)
    (df_summary : DataFrame resumen) : option (list hoja) :=
  if negb (empty df_all_notes)
  then Some (boletin_excel df_all_notes df_summary)
  else None.

Definition tab_reporte (id_alumno_reporte : Z) (d : DB)
    : option (list hoja) :=
  let '(df_all_notes, df_summary) :=
    generate_report_data id_alumno_reporte d in
  exportar_boletin df_all_notes df_summary.

(** ** The CSV download of the summary

    [df_summary.to_csv(index=False).encode('utf-8')].  Text is kept here
    as UTF-8 byte strings, so [encode] changes nothing; the delimiter,
    the quote and the line ends are ASCII and no byte of a multi-byte
    character equals one of them.  pandas turns every cell into text
    ([str] of an integer, [repr] of a binary64 number) and hands the
    rows to Python's [csv.writer] with the dialect: delimiter [,], quote
    character the double quote, doubled inside a quoted field,
    [QUOTE_MINIMAL], line terminator [os.linesep]. *)

Definition coma : Ascii.ascii := Ascii.ascii_of_nat 44.
Definition comilla : Ascii.ascii := Ascii.ascii_of_nat 34.
Definition CR : Ascii.ascii := Ascii.ascii_of_nat 13.
Definition LF : Ascii.ascii := Ascii.ascii_of_nat 10.

(** [os.linesep]: CR LF on Windows ([crlf = true]), LF elsewhere. *)
Definition linesep (crlf : bool) : string :=
  if crlf then String CR (String LF "") else String LF "".

(** The characters that make [csv.writer] quote a field: the delimiter,
    the quote character and the characters of the line terminator. *)
Definition especial (crlf : bool) (c : Ascii.ascii) : bool :=
  bool_decide (c = coma) || bool_decide (c = comilla)
  || bool_decide (c = LF) || (crlf && bool_decide (c = CR)).

Fixpoint necesita_comillas (crlf : bool) (s : string) : bool :=
  match s with
  | "" => false
  | String c s' => especial crlf c || necesita_comillas crlf s'
  end.

Fixpoint duplicar_comillas (s : string) : string :=
  match s with
  | "" => ""
  | String c s' =>
      if decide (c = comilla)
      then String comilla (String comilla (duplicar_comillas s'))
      else String c (duplicar_comillas s')
  end.

Definition escribir_campo (crlf : bool) (s : string) : string :=
  if necesita_comillas crlf s
  then String comilla (duplicar_comillas s +:+ String comilla "")
  else s.

Fixpoint unir_campos (campos : list string) : string :=
  match campos with
  | [] => ""
  | [c] => c
  | c :: resto => c +:+ String coma (unir_campos resto)
  end.

(** [writer.writerow(fila)]; a row that is one empty field is written as
    a pair of quotes. *)
Definition writerow (crlf : bool) (fila : list string) : string :=
  match fila with
  | [""] => String comilla (String comilla (linesep crlf))
  | _ => unir_campos (escribir_campo crlf <$> fila) +:+ linesep crlf
  end.

Fixpoint writerows (crlf : bool) (filas : list (list string)) : string :=
  match filas with
  | [] => ""
  | fila :: resto => writerow crlf fila +:+ writerows crlf resto
  end.

(** The cells of a summary row as text; [repr_float] is Python's [repr]
    on binary64 numbers. *)
Definition textos_resumen (repr_float : float → string) (r : resumen)
    : list string :=
  [r_Alumno r; r_Materia r; repr_float (Promedio_Materia r);
   pretty (Total_Notas r)].

(** [df.to_csv(index=...)]: the header, then one line per row; with
    [index=True] a first column holds the row labels 0, 1, ... under an
    empty header cell. *)
Definition to_csv {R} (textos : R → list string) (crlf : bool)
    (df : DataFrame R) (index : bool) : string :=
  writerows crlf
    ((if index then "" :: columns df else columns df)
     :: (if index
         then imap (λ i r, pretty (Z.of_nat i) :: textos r) (filas df)
         else textos <$> filas df)).

Definition csv_summary (repr_float : float → string) (crlf : bool)
    (df_summary : DataFrame resumen) : string :=
  to_csv (textos_resumen repr_float) crlf df_summary false.

(** *** Decoding

    Python's [csv.reader] over the text opened with [newline=''], as the
    csv module asks.  The reader does not look at the line terminator of
    the dialect: outside a quoted field a CR, a LF or a CR LF pair ends
    the record, and an empty line gives a record without fields; inside
    a quoted field both are data.  [campo] is the field being read,
    [fila] the fields of the current record and [filas] the records
    already complete. *)
Inductive modo :=
  | Inicio        (* at the start of a field, and of a record when
                     [fila] is empty *)
  | Libre         (* inside an unquoted field *)
  | Citado        (* inside a quoted field *)
  | TrasComilla   (* after a quote met inside a quoted field *)
  | TrasCR.       (* after a CR that ended a record *)

Fixpoint leer (m : modo) (campo : string) (fila : list string)
    (filas : list (list string)) (s : string) : list (list string) :=
  match s with
  | "" =>
      match m, fila with
      | Inicio, [] | TrasCR, _ => filas
      | _, _ => filas ++ [fila ++ [campo]]
      end
  | String c s' =>
      let registro :=
        match m, fila with
        | Inicio, [] | TrasCR, _ => []
        | _, _ => fila ++ [campo]
        end in
      let fuera :=
        if decide (c = coma)
        then leer Inicio "" (fila ++ [campo]) filas s'
        else if decide (c = LF)
        then leer Inicio "" [] (filas ++ [registro]) s'
        else if decide (c = CR)
        then leer TrasCR "" [] (filas ++ [registro]) s'
        else leer Libre (campo +:+ String c "") fila filas s' in
      match m with
      | Citado =>
          if decide (c = comilla)
          then leer TrasComilla campo fila filas s'
          else leer Citado (campo +:+ String c "") fila filas s'
      | TrasComilla =>
          if decide (c = comilla)
          then leer Citado (campo +:+ String c "") fila filas s'
          else fuera
      | Inicio =>
          if decide (c = comilla)
          then leer Citado campo fila filas s'
          else fuera
      | Libre => fuera
      | TrasCR =>
          if decide (c = LF)
          then leer Inicio "" [] filas s'
          else if decide (c = comilla)
          then leer Citado campo fila filas s'
          else fuera
      end
  end.

Definition leer_csv (s : string) : list (list string) :=
  leer Inicio "" [] [] s.

(** Whether a text holds a CR. *)
Fixpoint tiene_CR (s : string) : bool :=
  match s with
  | "" => false
  | String c s' => bool_decide (c = CR) || tiene_CR s'
  end.

(** ** The loop of "Guardar Asignaciones" as a function of the store *)

(** The ids of the selected names, up to the first name that is not a
    key of the dictionary (where [dict_materias[materia_nombre]] raises
    and the loop stops). *)
Fixpoint ids_encontrados (dict : gmap string Z) (nuevas : list string)
    : list Z :=
  match nuevas with
  | [] => []
  | n :: resto =>
      match dict !! n with
      | Some i => i :: ids_encontrados dict resto
      | None => []
      end
  end.

(** The store after the INSERTs of the loop, and the states the loop
    commits on the way, oldest first. *)
Definition insertar_filas (hoy : string) (id_alumno : Z) (ids : list Z)
    (d : DB) : DB :=
  foldl (λ d i, execute hoy (INSERT_asignaciones id_alumno i) d) d ids.

Fixpoint confirmar_inserciones (hoy : string) (id_alumno : Z)
    (ids : list Z) (d : DB) : list DB :=
  match ids with
  | [] => []
  | i :: resto =>
      let d' := execute hoy (INSERT_asignaciones id_alumno i) d in
      d' :: confirmar_inserciones hoy id_alumno resto d'
  end.

(** ** The primary keys

    What [INTEGER PRIMARY KEY AUTOINCREMENT] guarantees in each table:
    no two rows share an id, and no id exceeds the table's counter. *)
Record claves_primarias (d : DB) : Prop := mk_claves_primarias {
  pk_alumnos : NoDup (al_id <$> alumnos d);
  pk_materias : NoDup (ma_id <$> materias d);
  pk_asignaciones : NoDup (as_id <$> asignaciones d);
  pk_calificaciones : NoDup (ca_id <$> calificaciones d);
  seq_alumnos_max : Forall (λ a, (al_id a ≤ seq_alumnos d)%Z) (alumnos d);
  seq_materias_max : Forall (λ m, (ma_id m ≤ seq_materias d)%Z) (materias d);
  seq_asignaciones_max :
    Forall (λ a, (as_id a ≤ seq_asignaciones d)%Z) (asignaciones d);
  seq_calificaciones_max :
    Forall (λ c, (ca_id c ≤ seq_calificaciones d)%Z) (calificaciones d) }.

(** The stores the application can reach: the fresh file, and whatever a
    statement makes of a reachable store on some day. *)
Inductive alcanzable : DB → Prop :=
  | alcanzable_init : alcanzable init_db
  | alcanzable_execute hoy q d :
      alcanzable d → alcanzable (execute hoy q d).

(** ** More of [main]: queries and handlers of the other tabs *)

(** [SELECT * FROM alumnos WHERE id=?], the rows behind [datos_actuales]. *)
Definition select_alumno (id : Z) (d : DB) : list alumno :=
  filter (λ a, al_id a = id) (alumnos d).

(** "Actualizar" (tab3). *)
Definition actualizar_alumno (new_nombre : string) (new_edad : Z)
    (new_grado : string) (id_sel : Z) : M unit :=
  run_query (UPDATE_alumnos new_nombre new_edad new_grado id_sel);; mret ().

(** The name query of the assignment page, whose result pre-fills the
    multiselect:
    [SELECT m.nombre FROM materias m JOIN asignaciones a
     ON m.id = a.materia_id WHERE a.alumno_id = ?].
    SQLite scans the student's enrollment rows in rowid order and looks
    the subject of each one up by its id, so the names come in the order
    of the enrollment rows. *)
Definition select_asignadas (alumno_id : Z) (d : DB) : list string :=
  a ← filter (λ a, as_alumno_id a = alumno_id) (asignaciones d);
  m ← filter (λ m, ma_id m = as_materia_id a) (materias d);
  [ma_nombre m].

(** The same join with [SELECT m.id, m.nombre], in the grades page. *)
Definition select_materias_asignadas (alumno_id : Z) (d : DB)
    : list (Z * string) :=
  a ← filter (λ a, as_alumno_id a = alumno_id) (asignaciones d);
  m ← filter (λ m, ma_id m = as_materia_id a) (materias d);
  [(ma_id m, ma_nombre m)].

(** The tab "Ingreso de Notas" for one click on "Guardar Nota": the
    student is picked by name, the subject by name among those the
    student's plan joins with, and one grade row is inserted.  With no
    student registered, or no subject assigned, only a warning is
    shown. *)
Definition ingresar_nota (alumno_calif materia_calif : string) (nota : float)
    : M unit :=
  alumnos ← run_select select_alumnos_id_nombre;
  match alumnos with
  | [] => mret ()
  | _ =>
      id_alumno_calif ← getitem (dict_comp alumnos) alumno_calif;
      materias_asignadas ←
        run_select (select_materias_asignadas id_alumno_calif);
      match materias_asignadas with
      | [] => mret ()
      | _ =>
          id_mat_calif ← getitem (dict_comp materias_asignadas) materia_calif;
          guardar_nota id_alumno_calif id_mat_calif nota
      end
  end.

(** A sequence of statements, each executed on its own day. *)
Definition ejecutar (guion : list (string * sentencia)) (d : DB) : DB :=
  foldl (λ d p, execute p.1 p.2 d) d guion.

(** A report row with another student name. *)
Definition con_nombre (nombre : string) (r : fila) : fila :=
  mk_fila nombre (Materia r) (Calificacion r) (Fecha r).

(** The key of a summary row. *)
Definition r_clave (r : resumen) : string * string :=
  (r_Alumno r, r_Materia r).

(** A handler keeps the store among those statements can reach. *)
Definition conserva_alcanzable {A} (m : M A) : Prop :=
  ∀ e, alcanzable (escuela e) → alcanzable (escuela (m e).1).

(** ** The tab "Editar/Borrar"

    [f"{id} - {nombre}"], the label of a student in the select box.
    [pretty] writes an integer as [str] does: in decimal, with a leading
    minus sign when negative. *)
Definition etiqueta (id : Z) (nombre : string) : string :=
  pretty id +:+ " - " +:+ nombre.

(** [{f"{id} - {nombre}": id for id, nombre in data}] *)
Definition opciones (data : list (Z * string)) : gmap string Z :=
  dict_comp ((λ p, (p.1, etiqueta p.1 p.2)) <$> data).

(** The two submit buttons of the form "edit_alumno", with the values
    typed into the form; [sin_pulsar] is a run in which neither was
    pressed. *)
Inductive boton :=
  | Actualizar (new_nombre : string) (new_edad : Z) (new_grado : string)
  | Borrar_Alumno
  | sin_pulsar.

(** The tab for one run of the script.  [opciones.get(seleccion)] is
    [None] for a label that is not a key; the SELECT with [id = NULL]
    then returns no row, and so does the SELECT for an id that no
    student has: in both cases [...[0]] raises.  [st.rerun()] ends the
    run after "Actualizar", so at most one branch writes. *)
Definition editar_borrar (seleccion : string) (b : boton) : M unit :=
  data ← run_select select_alumnos_id_nombre;
  match data with
  | [] => mret ()
  | _ =>
      match opciones data !! seleccion with
      | None => raise IndexError
      | Some id_sel =>
          datos ← run_select (select_alumno id_sel);
          match datos with
          | [] => raise IndexError
          | datos_actuales :: _ =>
              match b with
              | Actualizar new_nombre new_edad new_grado =>
                  actualizar_alumno new_nombre new_edad new_grado id_sel
              | Borrar_Alumno => borrar_alumno id_sel
              | sin_pulsar => mret ()
              end
          end
      end
  end.

(** No character of [s] is a space. *)
Definition espacio : Ascii.ascii := Ascii.ascii_of_nat 32.

Fixpoint sin_espacio (s : string) : Prop :=
  match s with
  | EmptyString => True
  | String c r => c ≠ espacio ∧ sin_espacio r
  end.

(** ** The history table of the grade entry tab *)

(** A row of the history: the columns Materia, Nota and Fecha. *)
Record nota_historial := mk_nota_historial {
  h_Materia : string;
  h_Nota : float;
  h_Fecha : string }.

(** [ORDER BY c.fecha DESC]: [r1] may come before [r2]. *)
Definition orden_historial (r1 r2 : nota_historial) : Prop :=
  str_le (h_Fecha r2) (h_Fecha r1).

#[global] Instance orden_historial_dec r1 r2 :
  Decision (orden_historial r1 r2).
Proof. unfold orden_historial. apply _. Defined.

(** The SELECT under "Historial de Notas": the student's grades, in
    rowid order, each joined with the subject row, then sorted newest
    first. *)
Definition select_historial (alumno_id : Z) (d : DB) : list nota_historial :=
  ordenar orden_historial
    (c ← filter (λ c, ca_alumno_id c = alumno_id) (calificaciones d);
     m ← filter (λ m, ma_id m = ca_materia_id c) (materias d);
     [mk_nota_historial (ma_nombre m) (ca_nota c) (ca_fecha c)]).

(** The report row that carries a history row, under a student name. *)
Definition fila_de (nombre : string) (h : nota_historial) : fila :=
  mk_fila nombre (h_Materia h) (h_Nota h) (h_Fecha h).

(** ** Stores and frames used as examples *)

(** One student, three subjects, two of them assigned, and one grade. *)
Definition e_ejemplo_materias : estado :=
  mk_estado
    (mk_DB [mk_alumno 1 "Ana" 12 "6A"]
           [mk_materia 1 "Math" ""; mk_materia 2 "Art" "";
            mk_materia 3 "Music" ""]
           [mk_asignacion 1 1 1; mk_asignacion 2 1 2]
           [mk_calificacion 1 1 1 8 "2024-03-01"]
           1 3 2 1)
    "2024-03-02" [].

(** The dictionary the assignment page builds from that store. *)
Definition dict_ejemplo : gmap string Z :=
  dict_materias (escuela e_ejemplo_materias).

(** A store with one registered student and no grades. *)
Definition d_sin_notas : DB :=
  final (guardar_alumno "Ana" 12 "6A") (mk_estado init_db "2024-03-02" []).

(** A report of one grade. *)
Definition df_ejemplo : DataFrame fila :=
  mk_DataFrame ["Alumno"; "Materia"; "Calificacion"; "Fecha"]
               [mk_fila "Ana" "Math" 8 "2024-03-01"].
Definition df_summary_ejemplo : DataFrame resumen :=
  mk_DataFrame ["Alumno"; "Materia"; "Promedio_Materia"; "Total_Notas"]
               [mk_resumen "Ana" "Math" 8 1].

(** The same world on another day. *)
Definition con_fecha (fecha : string) (e : estado) : estado :=
  mk_estado (escuela e) fecha (confirmados e).

(** A store reached through the handlers: Ana is registered, Math and
    Art are created and assigned to her, and she is graded on three
    days: 8.0 in Math, then 9.0 in Art, then 6.0 in Math. *)
Definition d_boletin : DB :=
  let e1 := ((guardar_alumno "Ana" 12 "6A";;
              crear_materia "Math" "Algebra";;
              crear_materia "Art" "Drawing";;
              asignar_materias "Ana" ["Math"; "Art"];;
              guardar_nota 1 1 8) (mk_estado init_db "2024-03-01" [])).1 in
  let e2 := (guardar_nota 1 2 9 (con_fecha "2024-03-05" e1)).1 in
  escuela (guardar_nota 1 1 6 (con_fecha "2024-03-09" e2)).1.

(** A summary whose student name holds a CR, and a stand-in for [repr]
    that writes 7.0 as Python does. *)
Definition df_summary_CR : DataFrame resumen :=
  mk_DataFrame ["Alumno"; "Materia"; "Promedio_Materia"; "Total_Notas"]
               [mk_resumen ("Ana" +:+ String CR "Luisa") "Math" 7 2].

Definition repr_ejemplo (x : float) : string := "7.0".

(** * Properties *)

(** Closes a closed decidable goal by evaluation. *)
Ltac by_decide := apply (bool_decide_unpack _); vm_compute; exact I.

(** ** The store keeps its primary keys *)

Lemma init_db_claves_primarias : claves_primarias init_db.
Proof. split; simpl; constructor. Qed.

Lemma NoDup_fmap_filter {A B} (f : A → B) (P : A → Prop)
    `{∀ x, Decision (P x)} (l : list A) :
  NoDup (f <$> l) → NoDup (f <$> filter P l).
Proof.
  induction l as [|x l IH]; simpl; [done|].
  rewrite NoDup_cons. intros [Hx Hl].
  rewrite filter_cons. destruct (decide (P x)); [|by auto].
  rewrite fmap_cons, NoDup_cons. split; [|by auto].
  intros Hin. apply Hx.
  apply list_elem_of_fmap in Hin as (y & -> & Hy).
  apply list_elem_of_fmap. exists y. split; [done|].
  by apply list_elem_of_filter in Hy as [_ ?].
Qed.

Lemma Forall_filter_keep {A} (Q P : A → Prop) `{∀ x, Decision (P x)}
    (l : list A) :
  Forall Q l → Forall Q (filter P l).
Proof.
  rewrite !Forall_forall. intros HQ x Hx.
  apply list_elem_of_filter in Hx as [_ ?]. by apply HQ.
Qed.

Lemma NoDup_fmap_snoc_fresh {A} (f : A → Z) (l : list A) (x : A) (n : Z) :
  NoDup (f <$> l) → Forall (λ y, (f y ≤ n)%Z) l → (n < f x)%Z →
  NoDup (f <$> (l ++ [x])).
Proof.
  intros Hnd Hmax Hx. rewrite fmap_app. apply NoDup_app.
  split; [done|]. split; [|apply NoDup_singleton].
  intros i Hi Hi'. apply list_elem_of_fmap in Hi as (y & -> & Hy).
  apply list_elem_of_singleton in Hi'.
  rewrite Forall_forall in Hmax. specialize (Hmax y Hy). simpl in *. lia.
Qed.

Lemma Forall_snoc_bump {A} (f : A → Z) (l : list A) (x : A) (n : Z) :
  Forall (λ y, (f y ≤ n)%Z) l → f x = (n + 1)%Z →
  Forall (λ y, (f y ≤ n + 1)%Z) (l ++ [x]).
Proof.
  intros Hmax Hx. apply Forall_app. split.
  - eapply Forall_impl; [done|]. simpl. intros; lia.
  - apply Forall_singleton. lia.
Qed.

Lemma execute_claves_primarias hoy q d :
  claves_primarias d → claves_primarias (execute hoy q d).
Proof.
  intros [Ha Hm Hs Hc Ma Mm Ms Mc].
  destruct q; split; simpl; try done;
    try (by apply NoDup_fmap_filter);
    try (by apply Forall_filter_keep);
    try (by eapply NoDup_fmap_snoc_fresh; [done|done|simpl; lia]);
    try (by apply Forall_snoc_bump).
  - rewrite <- list_fmap_compose.
    erewrite list_fmap_ext; [exact Ha|].
    intros i a _. simpl. by destruct (decide _).
  - rewrite Forall_fmap. eapply Forall_impl; [exact Ma|].
    intros a Hle. simpl. by destruct (decide _).
Qed.

Lemma run_query_claves_primarias q e :
  claves_primarias (escuela e) → claves_primarias (escuela (run_query q e).1).
Proof. apply execute_claves_primarias. Qed.

Lemma alcanzable_claves_primarias d : alcanzable d → claves_primarias d.
Proof.
  induction 1 as [|hoy q d _ IH].
  - apply init_db_claves_primarias.
  - by apply execute_claves_primarias.
Qed.

(** ** Deleting a student *)

Lemma filter_ne_no_match {A} (f : A → Z) (i : Z) (l : list A) :
  filter (λ x, f x = i) (filter (λ x, f x ≠ i) l) = [].
Proof.
  induction l as [|x l IH]; simpl; [done|].
  rewrite filter_cons. destruct (decide (f x ≠ i)) as [Hne|]; [|done].
  rewrite filter_cons. by destruct (decide (f x = i)).
Qed.

Lemma select_boletin_sin_notas alumno_id d :
  filter (λ c, ca_alumno_id c = alumno_id) (calificaciones d) = [] →
  select_boletin alumno_id d = [].
Proof. unfold select_boletin. by intros ->. Qed.

(** C9. For every student id, "Borrar Alumno" ends without raising and
    leaves the three tables without the rows of that id: the student row
    is gone, and so is every enrollment row and every grade row that
    refers to the id; the rows of other students stay as they were.
    Neither the plan query nor the report query finds anything for the
    id afterwards. *)
Theorem borrar_alumno_sin_huerfanos (id_sel : Z) (e : estado) :
  let d := final (borrar_alumno id_sel) e in
  resultado (borrar_alumno id_sel) e = inr () ∧
  alumnos d = filter (λ a, al_id a ≠ id_sel) (alumnos (escuela e)) ∧
  asignaciones d
    = filter (λ a, as_alumno_id a ≠ id_sel) (asignaciones (escuela e)) ∧
  calificaciones d
    = filter (λ c, ca_alumno_id c ≠ id_sel) (calificaciones (escuela e)) ∧
  materias d = materias (escuela e) ∧
  filter (λ a, al_id a = id_sel) (alumnos d) = [] ∧
  filter (λ a, as_alumno_id a = id_sel) (asignaciones d) = [] ∧
  filter (λ c, ca_alumno_id c = id_sel) (calificaciones d) = [] ∧
  plan d id_sel = [] ∧
  select_boletin id_sel d = [].
Proof.
  set (d := final _ _).
  assert (Ha : alumnos d
               = filter (λ a, al_id a ≠ id_sel) (alumnos (escuela e)))
    by reflexivity.
  assert (Hs : asignaciones d
               = filter (λ a, as_alumno_id a ≠ id_sel)
                        (asignaciones (escuela e))) by reflexivity.
  assert (Hc : calificaciones d
               = filter (λ c, ca_alumno_id c ≠ id_sel)
                        (calificaciones (escuela e))) by reflexivity.
  repeat split; try done.
  - rewrite Ha. apply filter_ne_no_match.
  - rewrite Hs. apply filter_ne_no_match.
  - rewrite Hc. apply filter_ne_no_match.
  - unfold plan. rewrite Hs, filter_ne_no_match. done.
  - apply select_boletin_sin_notas. rewrite Hc. apply filter_ne_no_match.
Qed.

(** ** Deleting a subject *)

Lemma filter_all {A} (P : A → Prop) `{∀ x, Decision (P x)} (l : list A) :
  Forall P l → filter P l = l.
Proof.
  induction 1 as [|x l Hx _ IH]; [done|].
  by rewrite filter_cons_True, IH.
Qed.

Lemma filter_none {A} (P : A → Prop) `{∀ x, Decision (P x)} (l : list A) :
  Forall (λ x, ¬ P x) l → filter P l = [].
Proof.
  induction 1 as [|x l Hx _ IH]; [done|].
  by rewrite filter_cons_False.
Qed.

Lemma filter_ne_unique {A} (f : A → Z) (l : list A) (x : A) :
  NoDup (f <$> l) → x ∈ l →
  ∃ l1 l2, l = l1 ++ x :: l2 ∧ filter (λ y, f y ≠ f x) l = l1 ++ l2.
Proof.
  intros Hnd Hx. apply list_elem_of_split in Hx as (l1 & l2 & ->).
  exists l1, l2. split; [done|].
  rewrite fmap_app, fmap_cons in Hnd.
  apply NoDup_app in Hnd as (_ & Hdisj & Hnd2).
  apply NoDup_cons in Hnd2 as [Hx2 _].
  rewrite filter_app, filter_cons.
  destruct (decide (f x ≠ f x)); [done|].
  f_equal.
  - apply filter_all, Forall_forall. intros y Hy Heq.
    apply (Hdisj (f y)); [by apply list_elem_of_fmap_2|].
    rewrite Heq. left.
  - apply filter_all, Forall_forall. intros y Hy Heq.
    apply Hx2. rewrite <- Heq. by apply list_elem_of_fmap_2.
Qed.

Lemma filter_hd_elem {A} (P : A → Prop) `{∀ x, Decision (P x)}
    (l : list A) (x : A) (r : list A) :
  filter P l = x :: r → x ∈ l ∧ P x.
Proof.
  intros Heq. assert (Hx : x ∈ filter P l) by (rewrite Heq; left).
  by apply list_elem_of_filter in Hx as [? ?].
Qed.

Lemma eliminar_materia_unfold del_materia e m r :
  filter (λ m, ma_nombre m = del_materia) (materias (escuela e)) = m :: r →
  eliminar_materia del_materia e
  = ((run_query (DELETE_materias (ma_id m)) e).1, inr ()).
Proof.
  intros Hf. unfold eliminar_materia, mbind, M_bind, run_select. simpl.
  destruct (materias (escuela e)) as [|m0 ms] eqn:Hm; [done|].
  by rewrite Hf.
Qed.

(** C10. "Eliminar Materia", for a name offered by the select box and a
    subjects table with distinct ids, ends without raising and removes
    exactly one row of [materias], a row with the chosen name; the
    students, the enrollment rows and the grade rows are what they were,
    those that refer to the deleted subject included. *)
Theorem eliminar_materia_una_fila (del_materia : string) (e : estado) :
  NoDup (ma_id <$> materias (escuela e)) →
  del_materia ∈ (ma_nombre <$> materias (escuela e)) →
  let d := final (eliminar_materia del_materia) e in
  resultado (eliminar_materia del_materia) e = inr () ∧
  (∃ m l1 l2, ma_nombre m = del_materia ∧
     materias (escuela e) = l1 ++ m :: l2 ∧ materias d = l1 ++ l2) ∧
  alumnos d = alumnos (escuela e) ∧
  asignaciones d = asignaciones (escuela e) ∧
  calificaciones d = calificaciones (escuela e).
Proof.
  intros Hnd Hin. simpl.
  apply list_elem_of_fmap in Hin as (m0 & Hname & Hm0).
  destruct (filter (λ m, ma_nombre m = del_materia) (materias (escuela e)))
    as [|m r] eqn:Hf.
  { exfalso. eapply filter_nil_not_elem_of; [exact Hf| |exact Hm0]. done. }
  unfold final, resultado. rewrite (eliminar_materia_unfold _ _ _ _ Hf).
  simpl. apply filter_hd_elem in Hf as [Hm Hname'].
  destruct (filter_ne_unique ma_id _ _ Hnd Hm) as (l1 & l2 & Heq & Hdel).
  split; [done|]. split; [|done].
  exists m, l1, l2. done.
Qed.

Lemma eliminar_materia_una_fila_witness :
  let d := final (eliminar_materia "Math") e_ejemplo_materias in
  resultado (eliminar_materia "Math") e_ejemplo_materias = inr () ∧
  (∃ m l1 l2, ma_nombre m = "Math" ∧
     materias (escuela e_ejemplo_materias) = l1 ++ m :: l2 ∧
     materias d = l1 ++ l2) ∧
  alumnos d = alumnos (escuela e_ejemplo_materias) ∧
  asignaciones d = asignaciones (escuela e_ejemplo_materias) ∧
  calificaciones d = calificaciones (escuela e_ejemplo_materias).
Proof.
  apply (eliminar_materia_una_fila "Math" e_ejemplo_materias).
  - by_decide.
  - by_decide.
Defined.

(** ** Saving a study plan *)

Lemma ids_encontrados_mapM dict nuevas ids :
  mapM (dict !!.) nuevas = Some ids → ids_encontrados dict nuevas = ids.
Proof.
  revert ids. induction nuevas as [|n r IH]; intros ids; simpl.
  - by intros [= <-].
  - destruct (dict !! n) as [i|]; simpl; [|done].
    destruct (mapM (dict !!.) r) as [ids'|]; simpl; [|done].
    intros [= <-]. by rewrite (IH ids').
Qed.

Lemma insertar_asignaciones_estado dict id nuevas e :
  (insertar_asignaciones dict id nuevas e).1
  = mk_estado
      (insertar_filas (hoy e) id (ids_encontrados dict nuevas) (escuela e))
      (hoy e)
      (confirmados e
         ++ confirmar_inserciones (hoy e) id (ids_encontrados dict nuevas)
                                  (escuela e)).
Proof.
  revert e. induction nuevas as [|n r IH]; intros e; simpl.
  - unfold mret, M_ret. simpl. rewrite app_nil_r. by destruct e.
  - unfold mbind, M_bind, getitem.
    destruct (dict !! n) as [i|]; simpl.
    + rewrite IH. simpl. by rewrite <- app_assoc.
    + rewrite app_nil_r. by destruct e.
Qed.

Lemma insertar_asignaciones_resultado dict id nuevas ids e :
  mapM (dict !!.) nuevas = Some ids →
  (insertar_asignaciones dict id nuevas e).2 = inr ().
Proof.
  revert ids e. induction nuevas as [|n r IH]; intros ids e; simpl; [done|].
  unfold mbind, M_bind, getitem.
  destruct (dict !! n) as [i|]; simpl; [|done].
  destruct (mapM (dict !!.) r) as [ids'|] eqn:Hr; simpl; [|done].
  intros _. by apply (IH ids').
Qed.

Lemma guardar_asignaciones_estado dict id nuevas e :
  let d0 := execute (hoy e) (DELETE_asignaciones id) (escuela e) in
  let ids := ids_encontrados dict nuevas in
  (guardar_asignaciones dict id nuevas e).1
  = mk_estado (insertar_filas (hoy e) id ids d0) (hoy e)
      (confirmados e ++ d0 :: confirmar_inserciones (hoy e) id ids d0).
Proof.
  simpl. unfold guardar_asignaciones, mbind, M_bind. simpl.
  rewrite insertar_asignaciones_estado. simpl. by rewrite <- app_assoc.
Qed.

Lemma guardar_asignaciones_resultado dict id nuevas ids e :
  mapM (dict !!.) nuevas = Some ids →
  (guardar_asignaciones dict id nuevas e).2 = inr ().
Proof.
  intros Hids. unfold guardar_asignaciones, mbind, M_bind. simpl.
  by apply (insertar_asignaciones_resultado _ _ _ ids).
Qed.

(** What the INSERTs of the loop do to the enrollment table. *)
Lemma insertar_filas_asignaciones hoy id ids d :
  asignaciones (insertar_filas hoy id ids d)
  = asignaciones d
    ++ imap (λ k i, mk_asignacion (seq_asignaciones d + 1 + Z.of_nat k) id i)
            ids
  ∧ seq_asignaciones (insertar_filas hoy id ids d)
    = seq_asignaciones d + Z.of_nat (length ids).
Proof.
  revert d. induction ids as [|i r IH]; intros d; simpl.
  - rewrite app_nil_r. split; [done|lia].
  - destruct (IH (execute hoy (INSERT_asignaciones id i) d)) as [Ha Hs].
    unfold insertar_filas in *. simpl in *. rewrite Ha, Hs.
    split; [|lia]. rewrite <- app_assoc. simpl. do 2 f_equal.
    rewrite Z.add_0_r. f_equal.
    apply imap_ext. intros k j _. simpl. f_equal. lia.
Qed.

Lemma insertar_filas_marco hoy id ids d :
  alumnos (insertar_filas hoy id ids d) = alumnos d ∧
  materias (insertar_filas hoy id ids d) = materias d ∧
  calificaciones (insertar_filas hoy id ids d) = calificaciones d.
Proof.
  revert d. induction ids as [|i r IH]; intros d; simpl; [done|].
  destruct (IH (execute hoy (INSERT_asignaciones id i) d)) as (Ha & Hm & Hc).
  unfold insertar_filas in *. simpl in *. by rewrite Ha, Hm, Hc.
Qed.

Lemma filter_imap_asignacion_eq (n s : Z) (ids : list Z) :
  filter (λ a, as_alumno_id a = s)
         (imap (λ k i, mk_asignacion (n + Z.of_nat k) s i) ids)
  = imap (λ k i, mk_asignacion (n + Z.of_nat k) s i) ids.
Proof.
  apply filter_all, Forall_forall. intros a Ha.
  apply list_elem_of_lookup in Ha as [k Hk].
  rewrite list_lookup_imap in Hk.
  destruct (ids !! k); simpl in Hk; by simplify_eq.
Qed.

Lemma filter_imap_asignacion_ne (n s s' : Z) (ids : list Z) :
  s ≠ s' →
  filter (λ a, as_alumno_id a = s')
         (imap (λ k i, mk_asignacion (n + Z.of_nat k) s i) ids) = [].
Proof.
  intros Hne. apply filter_none, Forall_forall. intros a Ha.
  apply list_elem_of_lookup in Ha as [k Hk].
  rewrite list_lookup_imap in Hk.
  destruct (ids !! k); simpl in Hk; by simplify_eq.
Qed.

Lemma fmap_imap_materia_id (n s : Z) (ids : list Z) :
  as_materia_id <$> imap (λ k i, mk_asignacion (n + Z.of_nat k) s i) ids
  = ids.
Proof.
  apply list_eq. intros k. rewrite list_lookup_fmap, list_lookup_imap.
  by destruct (ids !! k).
Qed.

Lemma plan_insertar_filas hoy s ids d :
  plan (insertar_filas hoy s ids d) s = plan d s ++ ids.
Proof.
  unfold plan. destruct (insertar_filas_asignaciones hoy s ids d) as [-> _].
  rewrite filter_app, fmap_app, filter_imap_asignacion_eq.
  by rewrite fmap_imap_materia_id.
Qed.

Lemma plan_insertar_filas_otro hoy s s' ids d :
  s ≠ s' → plan (insertar_filas hoy s ids d) s' = plan d s'.
Proof.
  intros Hne. unfold plan.
  destruct (insertar_filas_asignaciones hoy s ids d) as [-> _].
  rewrite filter_app, (filter_imap_asignacion_ne _ _ _ _ Hne).
  by rewrite app_nil_r.
Qed.

Lemma insertar_filas_alcanzable hoy id ids d :
  alcanzable d → alcanzable (insertar_filas hoy id ids d).
Proof.
  revert d. induction ids as [|i r IH]; intros d Hd; [done|].
  apply IH. by constructor.
Qed.

Lemma guardar_asignaciones_alcanzable dict id nuevas e :
  alcanzable (escuela e) →
  alcanzable (escuela (guardar_asignaciones dict id nuevas e).1).
Proof.
  intros He. rewrite guardar_asignaciones_estado. cbn [escuela].
  apply insertar_filas_alcanzable. by constructor.
Qed.

Lemma plan_delete hoy s d :
  plan (execute hoy (DELETE_asignaciones s) d) s = [].
Proof. unfold plan. simpl. by rewrite filter_ne_no_match. Qed.

Lemma plan_guardar_asignaciones dict s nuevas e :
  plan (escuela (guardar_asignaciones dict s nuevas e).1) s
  = ids_encontrados dict nuevas.
Proof.
  rewrite guardar_asignaciones_estado. cbn [escuela].
  by rewrite plan_insertar_filas, plan_delete.
Qed.

Lemma asignaciones_guardar_asignaciones dict s nuevas e :
  asignaciones (escuela (guardar_asignaciones dict s nuevas e).1)
  = filter (λ a, as_alumno_id a ≠ s) (asignaciones (escuela e))
    ++ imap (λ k i, mk_asignacion
                      (seq_asignaciones (escuela e) + 1 + Z.of_nat k) s i)
            (ids_encontrados dict nuevas).
Proof.
  rewrite guardar_asignaciones_estado. cbn [escuela].
  by destruct (insertar_filas_asignaciones (hoy e) s
                 (ids_encontrados dict nuevas)
                 (execute (hoy e) (DELETE_asignaciones s) (escuela e)))
    as [-> _].
Qed.

Lemma filas_guardar_asignaciones dict s nuevas e :
  filter (λ a, as_alumno_id a = s)
         (asignaciones (escuela (guardar_asignaciones dict s nuevas e).1))
  = imap (λ k i, mk_asignacion
                   (seq_asignaciones (escuela e) + 1 + Z.of_nat k) s i)
         (ids_encontrados dict nuevas).
Proof.
  rewrite asignaciones_guardar_asignaciones, filter_app.
  by rewrite filter_ne_no_match, filter_imap_asignacion_eq.
Qed.

Lemma otros_guardar_asignaciones dict s nuevas e :
  filter (λ a, as_alumno_id a ≠ s)
         (asignaciones (escuela (guardar_asignaciones dict s nuevas e).1))
  = filter (λ a, as_alumno_id a ≠ s) (asignaciones (escuela e)).
Proof.
  rewrite asignaciones_guardar_asignaciones, filter_app.
  rewrite (filter_none (λ a, as_alumno_id a ≠ s) (imap _ _)).
  - rewrite app_nil_r. apply filter_all, Forall_forall.
    intros a Ha. by apply list_elem_of_filter in Ha as [? _].
  - apply Forall_forall. intros a Ha.
    apply list_elem_of_lookup in Ha as [k Hk].
    rewrite list_lookup_imap in Hk.
    destruct (ids_encontrados dict nuevas !! k); simpl in Hk; [|done].
    simplify_eq. simpl. by intros [].
Qed.

(** C2. Saving the plan [X1] and then the plan [X2] of a student (both
    lists of names the dictionary knows) leaves the student with exactly
    the subjects of [X2], one row each in the order selected: as a set,
    the plan is the set of [X2]'s ids, whatever [X1] was.  The save
    replaces: every row the student has afterwards was inserted by the
    second save, with a fresh id above the counter the first save left,
    and the rows of the other students are the ones stored before. *)
Theorem guardar_asignaciones_reemplaza (dict : gmap string Z) (s : Z)
    (X1 X2 : list string) (ids1 ids2 : list Z) (e : estado) :
  mapM (dict !!.) X1 = Some ids1 →
  mapM (dict !!.) X2 = Some ids2 →
  let e1 := (guardar_asignaciones dict s X1 e).1 in
  let e2 := (guardar_asignaciones dict s X2 e1).1 in
  (guardar_asignaciones dict s X2 e1).2 = inr () ∧
  plan (escuela e2) s = ids2 ∧
  plan_set (escuela e2) s = list_to_set ids2 ∧
  filter (λ a, as_alumno_id a = s) (asignaciones (escuela e2))
  = imap (λ k i, mk_asignacion
                   (seq_asignaciones (escuela e1) + 1 + Z.of_nat k) s i)
         ids2 ∧
  filter (λ a, as_alumno_id a ≠ s) (asignaciones (escuela e2))
  = filter (λ a, as_alumno_id a ≠ s) (asignaciones (escuela e)).
Proof.
  intros H1 H2 e1 e2.
  assert (Hplan : plan (escuela e2) s = ids2).
  { unfold e2. rewrite plan_guardar_asignaciones.
    by apply ids_encontrados_mapM. }
  split; [by apply (guardar_asignaciones_resultado _ _ _ ids2)|].
  split; [done|]. split; [unfold plan_set; by rewrite Hplan|].
  split.
  - unfold e2. rewrite filas_guardar_asignaciones.
    by rewrite (ids_encontrados_mapM _ _ _ H2).
  - unfold e2, e1. by rewrite !otros_guardar_asignaciones.
Qed.

(** C3. Saving the same selection twice in a row leaves the student with
    the same plan as saving it once: the same set of subjects, the same
    number of rows, and indeed the same ids in the same order; the other
    students' rows are the same too.  This needs no assumption on the
    selection. *)
Theorem guardar_asignaciones_idempotente (dict : gmap string Z) (s : Z)
    (X : list string) (e : estado) :
  let e1 := (guardar_asignaciones dict s X e).1 in
  let e2 := (guardar_asignaciones dict s X e1).1 in
  plan_set (escuela e2) s = plan_set (escuela e1) s ∧
  length (filter (λ a, as_alumno_id a = s) (asignaciones (escuela e2)))
  = length (filter (λ a, as_alumno_id a = s) (asignaciones (escuela e1))) ∧
  plan (escuela e2) s = plan (escuela e1) s ∧
  filter (λ a, as_alumno_id a ≠ s) (asignaciones (escuela e2))
  = filter (λ a, as_alumno_id a ≠ s) (asignaciones (escuela e1)).
Proof.
  intros e1 e2.
  assert (Hplan : plan (escuela e2) s = plan (escuela e1) s).
  { unfold e2, e1. by rewrite !plan_guardar_asignaciones. }
  split; [unfold plan_set; by rewrite Hplan|].
  split; [|split; [done|]].
  - unfold e2, e1. rewrite !filas_guardar_asignaciones.
    by rewrite !length_imap.
  - unfold e2. by rewrite otros_guardar_asignaciones.
Qed.

Lemma guardar_asignaciones_reemplaza_witness :
  let e1 := (guardar_asignaciones dict_ejemplo 1 ["Math"; "Art"]
               e_ejemplo_materias).1 in
  let e2 := (guardar_asignaciones dict_ejemplo 1 ["Art"; "Music"] e1).1 in
  (guardar_asignaciones dict_ejemplo 1 ["Art"; "Music"] e1).2 = inr () ∧
  plan (escuela e2) 1 = [2; 3] ∧
  plan_set (escuela e2) 1 = list_to_set [2; 3] ∧
  filter (λ a, as_alumno_id a = 1) (asignaciones (escuela e2))
  = imap (λ k i, mk_asignacion
                   (seq_asignaciones (escuela e1) + 1 + Z.of_nat k) 1 i)
         [2; 3] ∧
  filter (λ a, as_alumno_id a ≠ 1) (asignaciones (escuela e2))
  = filter (λ a, as_alumno_id a ≠ 1)
           (asignaciones (escuela e_ejemplo_materias)).
Proof.
  apply (guardar_asignaciones_reemplaza dict_ejemplo 1 ["Math"; "Art"]
           ["Art"; "Music"] [1; 2] [2; 3] e_ejemplo_materias);
    vm_compute; reflexivity.
Defined.

(** *** Distinct names give distinct ids *)

Lemma dict_comp_foldl_lookup (data : list (Z * string)) (acc : gmap string Z)
    (k : string) (v : Z) :
  foldl (λ acc p, <[p.2 := p.1]> acc) acc data !! k = Some v →
  (v, k) ∈ data ∨ acc !! k = Some v.
Proof.
  revert acc. induction data as [|[i n] data IH]; intros acc; simpl.
  - by right.
  - intros Hl. apply IH in Hl as [Hin|Hacc].
    + left. by right.
    + destruct (decide (n = k)) as [->|Hne].
      * rewrite lookup_insert_eq in Hacc. simplify_eq. left. left.
      * rewrite lookup_insert_ne in Hacc by done. by right.
Qed.

Lemma dict_comp_lookup (data : list (Z * string)) (k : string) (v : Z) :
  dict_comp data !! k = Some v → (v, k) ∈ data.
Proof.
  intros Hl. apply dict_comp_foldl_lookup in Hl as [?|Hl]; [done|].
  by rewrite lookup_empty in Hl.
Qed.

Lemma NoDup_fst_functional {A B} (l : list (A * B)) (x : A) (y1 y2 : B) :
  NoDup (l.*1) → (x, y1) ∈ l → (x, y2) ∈ l → y1 = y2.
Proof.
  induction l as [|[a b] l IH]; simpl; [by intros _ ?%elem_of_nil|].
  rewrite NoDup_cons. intros [Ha Hnd] H1 H2.
  apply elem_of_cons in H1 as [H1|H1]; apply elem_of_cons in H2 as [H2|H2];
    simplify_eq; try done.
  - exfalso. apply Ha. apply list_elem_of_fmap. by exists (a, y2).
  - exfalso. apply Ha. apply list_elem_of_fmap. by exists (a, y1).
  - by apply IH.
Qed.

Lemma dict_materias_inyectivo (d : DB) (n1 n2 : string) (i : Z) :
  NoDup (ma_id <$> materias d) →
  dict_materias d !! n1 = Some i → dict_materias d !! n2 = Some i → n1 = n2.
Proof.
  intros Hnd H1%dict_comp_lookup H2%dict_comp_lookup.
  apply (NoDup_fst_functional (select_materias_id_nombre d) i); try done.
  unfold select_materias_id_nombre. rewrite <- list_fmap_compose.
  exact Hnd.
Qed.

Lemma ids_encontrados_elem (dict : gmap string Z) (nuevas : list string)
    (i : Z) :
  i ∈ ids_encontrados dict nuevas → ∃ n, n ∈ nuevas ∧ dict !! n = Some i.
Proof.
  induction nuevas as [|n r IH]; simpl; [by intros ?%elem_of_nil|].
  destruct (dict !! n) as [j|] eqn:Hn; [|by intros ?%elem_of_nil].
  intros [->|Hi]%elem_of_cons.
  - exists n. split; [left|done].
  - destruct (IH Hi) as (n' & Hn' & Hl). exists n'. split; [by right|done].
Qed.

Lemma ids_encontrados_NoDup (dict : gmap string Z) (nuevas : list string) :
  (∀ n1 n2 i, dict !! n1 = Some i → dict !! n2 = Some i → n1 = n2) →
  NoDup nuevas → NoDup (ids_encontrados dict nuevas).
Proof.
  intros Hinj. induction 1 as [|n r Hn Hr IH]; simpl; [constructor|].
  destruct (dict !! n) as [i|] eqn:Hi; [|constructor].
  apply NoDup_cons. split; [|done].
  intros (n' & Hn' & Hl)%ids_encontrados_elem.
  rewrite (Hinj n n' i Hi Hl) in Hn. done.
Qed.

(** C4, as amended.  The save stores one row per selected name and does
    not look for repetitions.  When the selected names are pairwise
    distinct, as the multiselect yields them, and the dictionary is the
    one built from a subjects table with distinct ids, the student has
    at most one row per subject after the save. *)
Theorem guardar_asignaciones_sin_duplicados (s : Z) (X : list string)
    (e : estado) :
  NoDup (ma_id <$> materias (escuela e)) →
  NoDup X →
  NoDup (plan
           (escuela
              (guardar_asignaciones (dict_materias (escuela e)) s X e).1)
           s).
Proof.
  intros Hpk HX. rewrite plan_guardar_asignaciones.
  apply ids_encontrados_NoDup; [|done].
  intros n1 n2 i. by apply dict_materias_inyectivo.
Qed.

Lemma guardar_asignaciones_sin_duplicados_witness :
  NoDup (plan
           (escuela
              (guardar_asignaciones
                 (dict_materias (escuela e_ejemplo_materias)) 1
                 ["Art"; "Math"] e_ejemplo_materias).1)
           1).
Proof.
  apply (guardar_asignaciones_sin_duplicados 1 ["Art"; "Math"]
           e_ejemplo_materias); by_decide.
Defined.

(** C4 fails as stated: a selection that names the same subject twice is
    stored as two rows of the same (student, subject) pair. *)
Lemma guardar_asignaciones_repite :
  let d := escuela
             (guardar_asignaciones
                (dict_materias (escuela e_ejemplo_materias)) 1
                ["Math"; "Math"] e_ejemplo_materias).1 in
  filter (λ a, as_alumno_id a = 1) (asignaciones d)
  = [mk_asignacion 3 1 1; mk_asignacion 4 1 1] ∧
  ¬ NoDup (plan d 1).
Proof.
  split; [vm_compute; reflexivity|].
  apply (bool_decide_unpack (¬ NoDup _)). vm_compute. exact I.
Qed.

(** *** The states a save commits *)

Lemma plan_insert_uno hoy s i d :
  plan (execute hoy (INSERT_asignaciones s i) d) s = plan d s ++ [i].
Proof. apply (plan_insertar_filas hoy s [i] d). Qed.

Lemma planes_confirmar_inserciones hoy s ids d :
  (λ d', plan d' s) <$> confirmar_inserciones hoy s ids d
  = (λ k, plan d s ++ take k ids) <$> seq 1 (length ids).
Proof.
  revert d. induction ids as [|i r IH]; intros d; [done|].
  cbn [confirmar_inserciones length seq fmap list_fmap].
  rewrite plan_insert_uno. f_equal.
  change (list_fmap _ _ ?f ?l) with (f <$> l). rewrite IH.
  rewrite <- (fmap_S_seq 1 (length r)), <- list_fmap_compose.
  apply list_fmap_ext. intros _ k _.
  rewrite plan_insert_uno, <- app_assoc. reflexivity.
Qed.

(** C6, as amended.  The save is not one transaction: every statement is
    committed by its own [run_query].  For a selection of names the
    dictionary knows, with ids [ids], the save adds [1 + length ids]
    committed states to the file's history; in the first one, right
    after the DELETE, the student has no enrollment row, and in the
    [k]-th one after it the student has the first [k] of the desired
    subjects.  These are the states a stop between two statements, or a
    reader on another connection, finds. *)
Theorem guardar_asignaciones_confirmados (dict : gmap string Z) (s : Z)
    (X : list string) (ids : list Z) (e : estado) :
  mapM (dict !!.) X = Some ids →
  ∃ ds : list DB,
    confirmados (guardar_asignaciones dict s X e).1 = confirmados e ++ ds ∧
    (λ d, plan d s) <$> ds = (λ k, take k ids) <$> seq 0 (S (length ids)).
Proof.
  intros Hids. rewrite guardar_asignaciones_estado. cbn [confirmados].
  rewrite (ids_encontrados_mapM _ _ _ Hids).
  eexists. split; [done|].
  rewrite fmap_cons, planes_confirmar_inserciones, plan_delete.
  by cbn [seq fmap list_fmap take].
Qed.

Lemma guardar_asignaciones_confirmados_witness :
  ∃ ds : list DB,
    confirmados
      (guardar_asignaciones dict_ejemplo 1 ["Math"; "Art"]
         e_ejemplo_materias).1
    = confirmados e_ejemplo_materias ++ ds ∧
    (λ d, plan d 1) <$> ds = (λ k, take k [1; 2]) <$> seq 0 3.
Proof.
  apply (guardar_asignaciones_confirmados dict_ejemplo 1 ["Math"; "Art"]
           [1; 2] e_ejemplo_materias).
  vm_compute. reflexivity.
Defined.

(** C6 fails as stated: the student had the plan Math, Art and saves the
    same plan; the file ends with that plan, but on the way a state with
    no enrollment at all for the student was committed. *)
Lemma guardar_asignaciones_no_atomico :
  let e := e_ejemplo_materias in
  let e' := (guardar_asignaciones dict_ejemplo 1 ["Math"; "Art"] e).1 in
  plan (escuela e) 1 = [1; 2] ∧
  plan (escuela e') 1 = [1; 2] ∧
  ∃ d, d ∈ confirmados e' ∧ plan d 1 = [].
Proof.
  split; [vm_compute; reflexivity|]. split; [vm_compute; reflexivity|].
  eexists. split; [left|]. vm_compute. reflexivity.
Qed.

(** ** The report of a student without grades *)

(** C5, as amended.  For an id with no grade row, [generate_report_data]
    returns a pair of empty frames, [pd.DataFrame()] twice, and raises
    nothing.  The pair is the same for every such id and store, so it
    carries no information on whether a student with the id exists. *)
Theorem generate_report_data_sin_notas (alumno_id : Z) (d : DB) :
  filter (λ c, ca_alumno_id c = alumno_id) (calificaciones d) = [] →
  generate_report_data alumno_id d = (DataFrame_vacio, DataFrame_vacio) ∧
  empty (generate_report_data alumno_id d).1 = true ∧
  empty (generate_report_data alumno_id d).2 = true.
Proof.
  intros Hc. unfold generate_report_data.
  by rewrite (select_boletin_sin_notas _ _ Hc).
Qed.

Lemma generate_report_data_sin_notas_witness :
  generate_report_data 7 (escuela e_ejemplo_materias)
  = (DataFrame_vacio, DataFrame_vacio) ∧
  empty (generate_report_data 7 (escuela e_ejemplo_materias)).1 = true ∧
  empty (generate_report_data 7 (escuela e_ejemplo_materias)).2 = true.
Proof.
  apply (generate_report_data_sin_notas 7 (escuela e_ejemplo_materias)).
  vm_compute. reflexivity.
Defined.

(** C5 fails as stated: student 1 is registered and ungraded in
    [d_sin_notas], no student is registered in [init_db], and the report
    for id 1 is the same in both. *)
Lemma generate_report_data_no_distingue :
  1 ∈ (al_id <$> alumnos d_sin_notas) ∧
  (1 ∉ (al_id <$> alumnos init_db)) ∧
  filter (λ c, ca_alumno_id c = 1) (calificaciones d_sin_notas) = [] ∧
  filter (λ c, ca_alumno_id c = 1) (calificaciones init_db) = [] ∧
  generate_report_data 1 d_sin_notas = generate_report_data 1 init_db.
Proof.
  split; [by_decide|]. split; [|done].
  apply (bool_decide_unpack (_ ∉ _)). vm_compute. exact I.
Qed.

(** ** The workbook *)

Lemma boletin_excel_hojas df_all_notes df_summary :
  boletin_excel df_all_notes df_summary
  = [mk_hoja "Resumen" (columns df_summary)
             (celdas_resumen <$> filas df_summary);
     mk_hoja "Historial Completo" (columns df_all_notes)
             (celdas_fila <$> filas df_all_notes)].
Proof. reflexivity. Qed.

(** C7, as amended.  For every pair of frames whose detail frame is not
    empty, the report tab offers a workbook of exactly two sheets,
    "Resumen" first and "Historial Completo" second; the header of each
    is the list of column labels of its frame and each data row holds
    the cells of one frame row, with no index cell in front.  When the
    detail frame is empty no workbook is produced. *)
Theorem exportar_boletin_hojas (df_all_notes : DataFrame fila)
    (df_summary : DataFrame resumen) :
  empty df_all_notes = false →
  exportar_boletin df_all_notes df_summary
  = Some [mk_hoja "Resumen" (columns df_summary)
                  (celdas_resumen <$> filas df_summary);
          mk_hoja "Historial Completo" (columns df_all_notes)
                  (celdas_fila <$> filas df_all_notes)].
Proof.
  intros Hne. unfold exportar_boletin. by rewrite Hne.
Qed.

Lemma exportar_boletin_hojas_witness :
  exportar_boletin df_ejemplo df_summary_ejemplo
  = Some [mk_hoja "Resumen" (columns df_summary_ejemplo)
                  (celdas_resumen <$> filas df_summary_ejemplo);
          mk_hoja "Historial Completo" (columns df_ejemplo)
                  (celdas_fila <$> filas df_ejemplo)].
Proof.
  apply (exportar_boletin_hojas df_ejemplo df_summary_ejemplo).
  reflexivity.
Defined.

(** C7 fails as stated for frames without rows: the pair that
    [generate_report_data] returns for an ungraded student gets no
    workbook at all, and neither does a detail frame that has its four
    columns but no row. *)
Lemma exportar_boletin_sin_filas :
  exportar_boletin DataFrame_vacio DataFrame_vacio = None ∧
  tab_reporte 1 d_sin_notas = None ∧
  exportar_boletin
    (mk_DataFrame ["Alumno"; "Materia"; "Calificacion"; "Fecha"] [])
    (mk_DataFrame ["Alumno"; "Materia"; "Promedio_Materia"; "Total_Notas"] [])
  = None.
Proof. done. Qed.

(** ** The text order is a total order *)

Lemma ascii_compare_refl (a : Ascii.ascii) : Ascii.compare a a = Eq.
Proof. apply N.compare_refl. Qed.

Lemma ascii_compare_lt_trans (a b c : Ascii.ascii) :
  Ascii.compare a b = Lt → Ascii.compare b c = Lt → Ascii.compare a c = Lt.
Proof.
  unfold Ascii.compare. rewrite !N.compare_lt_iff. apply N.lt_trans.
Qed.

Lemma string_compare_refl (s : string) : String.compare s s = Eq.
Proof.
  induction s as [|a s IH]; simpl; [done|].
  by rewrite ascii_compare_refl.
Qed.

Lemma string_compare_lt_trans (s1 s2 s3 : string) :
  String.compare s1 s2 = Lt → String.compare s2 s3 = Lt →
  String.compare s1 s3 = Lt.
Proof.
  revert s2 s3. induction s1 as [|a s1 IH]; intros [|b s2] [|c s3];
    simpl; try done.
  destruct (Ascii.compare a b) eqn:Hab; try done;
    destruct (Ascii.compare b c) eqn:Hbc; try done; intros H12 H23.
  - apply Ascii.compare_eq_iff in Hab as ->.
    apply Ascii.compare_eq_iff in Hbc as ->.
    rewrite ascii_compare_refl. by apply (IH s2).
  - apply Ascii.compare_eq_iff in Hab as ->. by rewrite Hbc.
  - apply Ascii.compare_eq_iff in Hbc as <-. by rewrite Hab.
  - by rewrite (ascii_compare_lt_trans a b c).
Qed.

Lemma string_compare_gt_lt (s1 s2 : string) :
  String.compare s1 s2 = Gt → String.compare s2 s1 = Lt.
Proof.
  rewrite (String.compare_antisym s2 s1). by intros ->.
Qed.

#[global] Instance str_le_total : Total str_le.
Proof.
  intros s1 s2. unfold str_le.
  destruct (String.compare s1 s2) eqn:H12; [by left|by left|right].
  by rewrite (string_compare_gt_lt _ _ H12).
Qed.

#[global] Instance str_le_trans : Transitive str_le.
Proof.
  intros s1 s2 s3. unfold str_le.
  destruct (String.compare s1 s2) eqn:H12; [| |done].
  - apply String.compare_eq_iff in H12 as ->. done.
  - destruct (String.compare s2 s3) eqn:H23; [| |done]; intros _ _.
    + apply String.compare_eq_iff in H23 as <-. by rewrite H12.
    + by rewrite (string_compare_lt_trans s1 s2 s3).
Qed.

#[global] Instance orden_boletin_total : Total orden_boletin.
Proof.
  intros r1 r2. unfold orden_boletin.
  destruct (String.compare (Materia r1) (Materia r2)) eqn:H12.
  - apply String.compare_eq_iff in H12. rewrite H12, string_compare_refl.
    destruct (total str_le (Fecha r2) (Fecha r1)); auto.
  - by left.
  - right. by rewrite (string_compare_gt_lt _ _ H12).
Qed.

#[global] Instance orden_boletin_trans : Transitive orden_boletin.
Proof.
  intros r1 r2 r3. unfold orden_boletin.
  destruct (String.compare (Materia r1) (Materia r2)) eqn:H12; [| |done].
  - apply String.compare_eq_iff in H12. rewrite H12.
    destruct (String.compare (Materia r2) (Materia r3)); [|done|done].
    intros ? ?. by transitivity (Fecha r2).
  - destruct (String.compare (Materia r2) (Materia r3)) eqn:H23;
      [| |done]; intros _ _.
    + apply String.compare_eq_iff in H23. by rewrite <- H23, H12.
    + by rewrite (string_compare_lt_trans _ _ _ H12 H23).
Qed.

#[global] Instance clave_le_total : Total clave_le.
Proof.
  intros k1 k2. unfold clave_le.
  destruct (String.compare k1.1 k2.1) eqn:H12.
  - apply String.compare_eq_iff in H12. rewrite H12, string_compare_refl.
    apply (total str_le).
  - by left.
  - right. by rewrite (string_compare_gt_lt _ _ H12).
Qed.

(** ** Sorting *)

Lemma insertar_Permutation {A} (R : A → A → Prop)
    `{∀ x y, Decision (R x y)} (x : A) (l : list A) :
  insertar R x l ≡ₚ x :: l.
Proof.
  induction l as [|y l IH]; [done|]. cbn [insertar].
  destruct (decide (R x y)); [done|].
  by rewrite IH, Permutation_swap.
Qed.

Lemma ordenar_Permutation {A} (R : A → A → Prop)
    `{∀ x y, Decision (R x y)} (l : list A) :
  ordenar R l ≡ₚ l.
Proof.
  induction l as [|x l IH]; [done|].
  change (ordenar R (x :: l)) with (insertar R x (ordenar R l)).
  by rewrite insertar_Permutation, IH.
Qed.

Lemma StronglySorted_insertar {A} (R : A → A → Prop)
    `{∀ x y, Decision (R x y)} `{!Total R} `{!Transitive R}
    (x : A) (l : list A) :
  StronglySorted R l → StronglySorted R (insertar R x l).
Proof.
  induction 1 as [|y l Hl IH Hy]; [by repeat constructor|].
  cbn [insertar]. destruct (decide (R x y)) as [Hxy|Hxy].
  - constructor; [by constructor|]. constructor; [done|].
    eapply Forall_impl; [exact Hy|]. intros z Hz. by transitivity y.
  - constructor; [done|]. rewrite insertar_Permutation.
    constructor; [|done]. by destruct (total R x y).
Qed.

Lemma StronglySorted_ordenar {A} (R : A → A → Prop)
    `{∀ x y, Decision (R x y)} `{!Total R} `{!Transitive R} (l : list A) :
  StronglySorted R (ordenar R l).
Proof.
  induction l as [|x l IH]; [constructor|].
  by apply StronglySorted_insertar.
Qed.

(** Sorting commutes with a change of the rows that keeps the order. *)
Lemma ordenar_fmap {A B} (R : A → A → Prop) (S : B → B → Prop)
    `{∀ x y, Decision (R x y)} `{∀ x y, Decision (S x y)} (f : A → B)
    (l : list A) :
  (∀ x y, S (f x) (f y) ↔ R x y) →
  ordenar S (f <$> l) = f <$> ordenar R l.
Proof.
  intros HRS. induction l as [|x l IH]; [done|].
  change (insertar S (f x) (ordenar S (f <$> l))
          = f <$> insertar R x (ordenar R l)).
  rewrite IH. generalize (ordenar R l). clear IH. intros t.
  induction t as [|y t IH]; [done|].
  rewrite fmap_cons. cbn [insertar].
  destruct (decide (R x y)) as [Hxy|Hxy].
  - by rewrite decide_True by (by apply HRS).
  - rewrite decide_False by (by rewrite HRS). by rewrite fmap_cons, IH.
Qed.

(** The report query returns the joined rows, sorted. *)
Lemma select_boletin_ordenado alumno_id d :
  StronglySorted orden_boletin (select_boletin alumno_id d).
Proof. apply StronglySorted_ordenar; apply _. Qed.

(** ** The report of a graded student *)

Lemma filter_eq_unique {A} (f : A → Z) (l : list A) (x : A) :
  NoDup (f <$> l) → x ∈ l → filter (λ y, f y = f x) l = [x].
Proof.
  intros Hnd Hx. apply list_elem_of_split in Hx as (l1 & l2 & ->).
  rewrite fmap_app, fmap_cons in Hnd.
  apply NoDup_app in Hnd as (_ & Hdisj & Hnd2).
  apply NoDup_cons in Hnd2 as [Hx2 _].
  rewrite filter_app, filter_cons_True by done.
  rewrite (filter_none _ l1), (filter_none _ l2); [done| |].
  - apply Forall_forall. intros y Hy Heq.
    apply Hx2. rewrite <- Heq. by apply list_elem_of_fmap_2.
  - apply Forall_forall. intros y Hy Heq.
    apply (Hdisj (f y)); [by apply list_elem_of_fmap_2|].
    rewrite Heq. left.
Qed.

(** One grade row joins with the one student row and the one subject
    row of its ids. *)
Lemma join_una_fila (d : DB) (a : alumno) (m : materia) (c : calificacion) :
  NoDup (al_id <$> alumnos d) → NoDup (ma_id <$> materias d) →
  a ∈ alumnos d → m ∈ materias d →
  ca_alumno_id c = al_id a → ca_materia_id c = ma_id m →
  (a' ← filter (λ a', al_id a' = ca_alumno_id c) (alumnos d);
   m' ← filter (λ m', ma_id m' = ca_materia_id c) (materias d);
   [mk_fila (al_nombre a') (ma_nombre m') (ca_nota c) (ca_fecha c)])
  = [mk_fila (al_nombre a) (ma_nombre m) (ca_nota c) (ca_fecha c)].
Proof.
  intros Ha Hm Hina Hinm -> ->.
  rewrite (filter_eq_unique al_id _ _ Ha Hina).
  by rewrite (filter_eq_unique ma_id _ _ Hm Hinm).
Qed.

Lemma Permutation_dos {A} (l : list A) (x y : A) :
  l ≡ₚ [x; y] → l = [x; y] ∨ l = [y; x].
Proof.
  intros Hp. symmetry in Hp.
  by apply Permutation.Permutation_length_2_inv in Hp.
Qed.

(** The groups of [groupby_agg] are the distinct keys of the rows. *)
Lemma claves_groupby (rows : list fila) (ks : list (string * string)) :
  NoDup ks → (∀ k, k ∈ ks ↔ k ∈ clave <$> rows) →
  merge_sort clave_le (remove_dups (clave <$> rows)) ≡ₚ ks.
Proof.
  intros Hnd Hks. rewrite merge_sort_Permutation.
  apply NoDup_Permutation; [apply NoDup_remove_dups|done|].
  intros k. by rewrite elem_of_remove_dups, Hks.
Qed.

Lemma groupby_agg_ordenado (rows : list fila) :
  Sorted clave_le (merge_sort clave_le (remove_dups (clave <$> rows))).
Proof. apply Sorted_merge_sort, _. Qed.

Lemma generate_report_data_con_notas (alumno_id : Z) (d : DB) :
  select_boletin alumno_id d ≠ [] →
  generate_report_data alumno_id d
  = (mk_DataFrame ["Alumno"; "Materia"; "Calificacion"; "Fecha"]
                  (select_boletin alumno_id d),
     mk_DataFrame ["Alumno"; "Materia"; "Promedio_Materia"; "Total_Notas"]
                  (groupby_agg (select_boletin alumno_id d))).
Proof.
  intros Hne. unfold generate_report_data.
  by destruct (select_boletin alumno_id d).
Qed.

Section Ejemplo_boletin.
(** A student with two grades in Math, 8.0 and 6.0, and one in Art,
    9.0, entered on any dates. *)
Variables (nombre f1 f2 f3 : string).

Let r1 := mk_fila nombre "Math" 8 f1.
Let r2 := mk_fila nombre "Math" 6 f2.
Let r3 := mk_fila nombre "Art" 9 f3.

Lemma filter_grupo_math :
  filter (λ r, clave r = (nombre, "Math")) [r1; r2; r3] = [r1; r2].
Proof.
  rewrite filter_cons_True by done. rewrite filter_cons_True by done.
  by rewrite filter_cons_False by (by intros [=]).
Qed.

Lemma filter_grupo_art :
  filter (λ r, clave r = (nombre, "Art")) [r1; r2; r3] = [r3].
Proof.
  rewrite filter_cons_False by (by intros [=]).
  rewrite filter_cons_False by (by intros [=]).
  by rewrite filter_cons_True by done.
Qed.

Lemma groupby_agg_ejemplo (data : list fila) :
  data ≡ₚ [r1; r2; r3] →
  groupby_agg data
  = [mk_resumen nombre "Art" 9 1; mk_resumen nombre "Math" 7 2].
Proof.
  intros Hdata. unfold groupby_agg.
  assert (HK : merge_sort clave_le (remove_dups (clave <$> data))
               ≡ₚ [(nombre, "Math"); (nombre, "Art")]).
  { apply claves_groupby.
    - apply NoDup_cons. split; [|apply NoDup_singleton].
      by intros [=]%list_elem_of_singleton.
    - intros k. rewrite Hdata. cbn [fmap list_fmap clave Alumno Materia r1 r2 r3].
      rewrite !elem_of_cons, !elem_of_nil. tauto. }
  pose proof (groupby_agg_ordenado data) as Hsorted.
  apply Permutation_dos in HK as [HK|HK]; rewrite HK in Hsorted |- *.
  { exfalso. apply Sorted_inv in Hsorted as [_ Hhd].
    apply HdRel_inv in Hhd. unfold clave_le in Hhd. simpl in Hhd.
    rewrite string_compare_refl in Hhd. by apply Hhd. }
  assert (HA : filter (λ r, clave r = (nombre, "Art")) data = [r3]).
  { apply Permutation_singleton_r.
    by rewrite Hdata, filter_grupo_art. }
  assert (HM : filter (λ r, clave r = (nombre, "Math")) data ≡ₚ [r1; r2]).
  { by rewrite Hdata, filter_grupo_math. }
  cbn [fmap list_fmap fst snd]. rewrite HA.
  apply Permutation_dos in HM as [-> | ->]; reflexivity.
Qed.
End Ejemplo_boletin.

(** C1. In a store with distinct ids where student [s] is registered,
    "Math" and "Art" are subjects, and the grade rows of [s] are, in any
    storage order, 8.0 and 6.0 in Math and 9.0 in Art,
    [generate_report_data] returns a summary frame with exactly the rows
    (Math, mean 7.0, count 2) and (Art, mean 9.0, count 1), Art listed
    first as pandas sorts the groups, and a detail frame with exactly
    three rows, the three grades with the student and subject names,
    ordered by subject name ascending and by date descending within a
    subject. *)
Theorem generate_report_data_ejemplo (d : DB) (s : Z)
    (nombre : string) (edad : Z) (grado : string)
    (iM iA : Z) (descM descA : string) (k1 k2 k3 : Z) (f1 f2 f3 : string) :
  NoDup (al_id <$> alumnos d) →
  NoDup (ma_id <$> materias d) →
  mk_alumno s nombre edad grado ∈ alumnos d →
  mk_materia iM "Math" descM ∈ materias d →
  mk_materia iA "Art" descA ∈ materias d →
  filter (λ c, ca_alumno_id c = s) (calificaciones d)
    ≡ₚ [mk_calificacion k1 s iM 8 f1; mk_calificacion k2 s iM 6 f2;
        mk_calificacion k3 s iA 9 f3] →
  let df := (generate_report_data s d).1 in
  let df_summary := (generate_report_data s d).2 in
  filas df_summary
    ≡ₚ [mk_resumen nombre "Math" 7 2; mk_resumen nombre "Art" 9 1] ∧
  filas df_summary
    = [mk_resumen nombre "Art" 9 1; mk_resumen nombre "Math" 7 2] ∧
  columns df_summary
    = ["Alumno"; "Materia"; "Promedio_Materia"; "Total_Notas"] ∧
  columns df = ["Alumno"; "Materia"; "Calificacion"; "Fecha"] ∧
  length (filas df) = 3%nat ∧
  filas df ≡ₚ [mk_fila nombre "Math" 8 f1; mk_fila nombre "Math" 6 f2;
               mk_fila nombre "Art" 9 f3] ∧
  StronglySorted orden_boletin (filas df).
Proof.
  intros Ha Hm Hina HinM HinA Hc.
  assert (Hsel : select_boletin s d
                 ≡ₚ [mk_fila nombre "Math" 8 f1; mk_fila nombre "Math" 6 f2;
                     mk_fila nombre "Art" 9 f3]).
  { unfold select_boletin. rewrite ordenar_Permutation, Hc.
    rewrite !bind_cons. change ([] ≫= ?f) with (@nil fila).
    rewrite (join_una_fila d _ _ _ Ha Hm Hina HinM) by done.
    rewrite (join_una_fila d _ _ _ Ha Hm Hina HinM) by done.
    rewrite (join_una_fila d _ _ _ Ha Hm Hina HinA) by done.
    done. }
  assert (Hne : select_boletin s d ≠ []).
  { intros Hnil. rewrite Hnil in Hsel.
    by apply Permutation_nil_l in Hsel. }
  rewrite (generate_report_data_con_notas s d Hne). cbn [fst snd filas columns].
  rewrite (groupby_agg_ejemplo nombre f1 f2 f3 _ Hsel).
  split; [apply Permutation_swap|]. split; [done|].
  split; [done|]. split; [done|].
  split; [by rewrite Hsel|]. split; [done|].
  apply select_boletin_ordenado.
Qed.

Lemma generate_report_data_ejemplo_witness :
  let df := (generate_report_data 1 d_boletin).1 in
  let df_summary := (generate_report_data 1 d_boletin).2 in
  filas df_summary
    ≡ₚ [mk_resumen "Ana" "Math" 7 2; mk_resumen "Ana" "Art" 9 1] ∧
  filas df_summary
    = [mk_resumen "Ana" "Art" 9 1; mk_resumen "Ana" "Math" 7 2] ∧
  columns df_summary
    = ["Alumno"; "Materia"; "Promedio_Materia"; "Total_Notas"] ∧
  columns df = ["Alumno"; "Materia"; "Calificacion"; "Fecha"] ∧
  length (filas df) = 3%nat ∧
  filas df ≡ₚ [mk_fila "Ana" "Math" 8 "2024-03-01";
               mk_fila "Ana" "Math" 6 "2024-03-09";
               mk_fila "Ana" "Art" 9 "2024-03-05"] ∧
  StronglySorted orden_boletin (filas df).
Proof.
  apply (generate_report_data_ejemplo d_boletin 1 "Ana" 12 "6A" 1 2
           "Algebra" "Drawing" 1 3 2 "2024-03-01" "2024-03-09" "2024-03-05").
  - by_decide.
  - by_decide.
  - vm_compute. left.
  - vm_compute. left.
  - vm_compute. right. left.
  - vm_compute. apply perm_skip, perm_swap.
Defined.

(** The detail frame of that store, as computed: Art first, then Math
    with the later date first. *)
Example generate_report_data_d_boletin :
  filas (generate_report_data 1 d_boletin).1
  = [mk_fila "Ana" "Art" 9 "2024-03-05";
     mk_fila "Ana" "Math" 6 "2024-03-09";
     mk_fila "Ana" "Math" 8 "2024-03-01"].
Proof. vm_compute. reflexivity. Qed.

(** ** Reading back what [csv.writer] wrote *)

Lemma string_app_assoc (s1 s2 s3 : string) :
  (s1 +:+ s2) +:+ s3 = s1 +:+ (s2 +:+ s3).
Proof.
  induction s1 as [|c s1 IH]; [done|].
  change (String c ((s1 +:+ s2) +:+ s3) = String c (s1 +:+ (s2 +:+ s3))).
  by rewrite IH.
Qed.

Lemma string_app_nil_r (s : string) : s +:+ "" = s.
Proof.
  induction s as [|c s IH]; [done|].
  change (String c (s +:+ "") = String c s). by rewrite IH.
Qed.

Lemma string_app_snoc (s : string) (c : Ascii.ascii) (t : string) :
  (s +:+ String c "") +:+ t = s +:+ String c t.
Proof. by rewrite string_app_assoc. Qed.

Lemma especial_false (crlf : bool) (c : Ascii.ascii) :
  especial crlf c = false →
  c ≠ coma ∧ c ≠ comilla ∧ c ≠ LF ∧ (crlf = true → c ≠ CR).
Proof.
  unfold especial. rewrite !orb_false_iff, andb_false_iff.
  rewrite !bool_decide_eq_false.
  intros [[[? ?] ?] [?|?]]; repeat split; try done.
  intros ?; congruence.
Qed.

(** An ordinary character goes to the field. *)
Lemma leer_paso (m : modo) (c : Ascii.ascii) (campo : string)
    (fila : list string) (filas : list (list string)) (s : string) :
  c ≠ coma → c ≠ comilla → c ≠ LF → c ≠ CR → m = Inicio ∨ m = Libre →
  leer m campo fila filas (String c s)
  = leer Libre (campo +:+ String c "") fila filas s.
Proof.
  intros Hcoma Hcomilla HLF HCR [-> | ->]; cbn [leer];
    by rewrite !decide_False by done.
Qed.

(** With CR LF line ends the writer quotes every field that holds a CR. *)
Lemma necesita_comillas_CR (f : string) :
  necesita_comillas true f = false → tiene_CR f = false.
Proof.
  induction f as [|c f IH]; [done|].
  cbn [necesita_comillas tiene_CR]. rewrite !orb_false_iff.
  intros [Hc Hf]. split; [|by apply IH].
  apply especial_false in Hc as (_ & _ & _ & HCR).
  apply bool_decide_eq_false. by apply HCR.
Qed.

Lemma leer_libre (crlf : bool) (f : string) :
  necesita_comillas crlf f = false → tiene_CR f = false →
  ∀ campo fila filas resto,
    leer Libre campo fila filas (f +:+ resto)
    = leer Libre (campo +:+ f) fila filas resto.
Proof.
  induction f as [|c f IH]; intros Hf HCR campo fila filas resto.
  - by rewrite string_app_nil_r.
  - cbn [necesita_comillas] in Hf. apply orb_false_iff in Hf as [Hc Hf].
    cbn [tiene_CR] in HCR. apply orb_false_iff in HCR as [HcCR HfCR].
    apply bool_decide_eq_false in HcCR.
    apply especial_false in Hc as (Hcoma & Hcomilla & HLF & _).
    change (String c f +:+ resto) with (String c (f +:+ resto)).
    rewrite leer_paso by auto. rewrite (IH Hf HfCR).
    by rewrite string_app_snoc.
Qed.

(** Inside the quotes every character is data, line ends included. *)
Lemma leer_citado (f : string) :
  ∀ campo fila filas resto,
    leer Citado campo fila filas
         (duplicar_comillas f +:+ String comilla resto)
    = leer TrasComilla (campo +:+ f) fila filas resto.
Proof.
  induction f as [|c f IH]; intros campo fila filas resto.
  - rewrite string_app_nil_r. cbn [duplicar_comillas].
    change ("" +:+ ?s) with s. cbn [leer]. by rewrite decide_True.
  - cbn [duplicar_comillas]. destruct (decide (c = comilla)) as [->|Hc].
    + change (String comilla (String comilla ?s) +:+ ?t)
        with (String comilla (String comilla (s +:+ t))).
      cbn [leer]. rewrite !decide_True by done.
      change (leer Citado (campo +:+ String comilla "") fila filas
                (duplicar_comillas f +:+ String comilla resto)
              = leer TrasComilla (campo +:+ String comilla f) fila filas
                  resto).
      by rewrite IH, string_app_snoc.
    + change (String c ?s +:+ ?t) with (String c (s +:+ t)).
      cbn [leer]. rewrite decide_False by done.
      change (leer Citado (campo +:+ String c "") fila filas
                (duplicar_comillas f +:+ String comilla resto)
              = leer TrasComilla (campo +:+ String c f) fila filas
                  resto).
      by rewrite IH, string_app_snoc.
Qed.

(** The delimiter ends a field and the line terminator ends a record,
    from every mode but the inside of a quoted field. *)
Lemma leer_coma (m : modo) (campo : string)
    (fila : list string) (filas : list (list string)) (resto : string) :
  m ≠ Citado → m ≠ TrasCR →
  leer m campo fila filas (String coma resto)
  = leer Inicio "" (fila ++ [campo]) filas resto.
Proof.
  intros Hm Hm'. destruct m; try done; cbn [leer];
    rewrite ?(decide_False (P := coma = comilla)) by done;
    by rewrite decide_True.
Qed.

Lemma leer_linesep (crlf : bool) (m : modo) (campo : string)
    (fila : list string) (filas : list (list string)) (resto : string) :
  m ≠ Citado → m ≠ TrasCR → (m = Inicio → fila ≠ []) →
  leer m campo fila filas (linesep crlf +:+ resto)
  = leer Inicio "" [] (filas ++ [fila ++ [campo]]) resto.
Proof.
  intros Hm Hm' Hfila.
  assert (Hreg : match m, fila with
                 | Inicio, [] | TrasCR, _ => []
                 | _, _ => fila ++ [campo]
                 end = fila ++ [campo]).
  { destruct m; try done. destruct fila; [by destruct Hfila|done]. }
  destruct crlf.
  - change (linesep true +:+ resto) with (String CR (String LF resto)).
    destruct m; try done; cbn [leer]; rewrite Hreg;
      rewrite ?(decide_False (P := CR = comilla)) by done;
      rewrite (decide_False (P := CR = coma)) by done;
      rewrite (decide_False (P := CR = LF)) by done;
      by rewrite !decide_True.
  - change (linesep false +:+ resto) with (String LF resto).
    destruct m; try done; cbn [leer]; rewrite Hreg;
      rewrite ?(decide_False (P := LF = comilla)) by done;
      rewrite (decide_False (P := LF = coma)) by done;
      by rewrite decide_True.
Qed.

(** A written field is read back whole, whatever ends it, provided that
    it holds no CR when the line ends are bare LF: the writer quotes a
    field for the characters of its own line terminator only. *)
Lemma leer_campo (crlf : bool) (f : string) (fila : list string)
    (filas : list (list string)) (cola : string)
    (K : string → list (list string)) :
  (crlf = false → tiene_CR f = false) →
  (∀ m campo, m ≠ Citado → m ≠ TrasCR → (m = Inicio → f = "") →
              leer m campo fila filas cola = K campo) →
  leer Inicio "" fila filas (escribir_campo crlf f +:+ cola) = K f.
Proof.
  intros HCR Hcola. unfold escribir_campo.
  destruct (necesita_comillas crlf f) eqn:Hf.
  - change (String comilla ?s +:+ ?t) with (String comilla (s +:+ t)).
    cbn [leer]. rewrite decide_True by done.
    rewrite string_app_assoc.
    change (String comilla "" +:+ cola) with (String comilla cola).
    rewrite leer_citado. by apply Hcola.
  - assert (HfCR : tiene_CR f = false).
    { destruct crlf; [by apply necesita_comillas_CR|by apply HCR]. }
    destruct f as [|c f]; [by apply Hcola|].
    cbn [necesita_comillas] in Hf. apply orb_false_iff in Hf as [Hc Hf].
    cbn [tiene_CR] in HfCR. apply orb_false_iff in HfCR as [HcCR HfCR].
    apply bool_decide_eq_false in HcCR.
    apply especial_false in Hc as (Hcoma & Hcomilla & HLF & _).
    change (String c f +:+ cola) with (String c (f +:+ cola)).
    rewrite leer_paso by auto. rewrite (leer_libre _ _ Hf HfCR).
    by apply Hcola.
Qed.

Lemma leer_campo_coma (crlf : bool) (f : string) (fila : list string)
    (filas : list (list string)) (resto : string) :
  (crlf = false → tiene_CR f = false) →
  leer Inicio "" fila filas (escribir_campo crlf f +:+ String coma resto)
  = leer Inicio "" (fila ++ [f]) filas resto.
Proof.
  intros HCR.
  apply (leer_campo crlf f fila filas _
           (λ campo, leer Inicio "" (fila ++ [campo]) filas resto) HCR).
  intros m campo Hm Hm' _. by apply leer_coma.
Qed.

Lemma leer_campo_linesep (crlf : bool) (f : string) (fila : list string)
    (filas : list (list string)) (resto : string) :
  (crlf = false → tiene_CR f = false) → fila ≠ [] ∨ f ≠ "" →
  leer Inicio "" fila filas
       (escribir_campo crlf f +:+ linesep crlf +:+ resto)
  = leer Inicio "" [] (filas ++ [fila ++ [f]]) resto.
Proof.
  intros HCR Hne.
  apply (leer_campo crlf f fila filas _
           (λ campo, leer Inicio "" [] (filas ++ [fila ++ [campo]]) resto)
           HCR).
  intros m campo Hm Hm' Hini. apply leer_linesep; [done..|].
  intros Hi. destruct Hne as [|Hf]; [done|]. by destruct Hf; apply Hini.
Qed.

Lemma leer_campos (crlf : bool) (campos : list string) :
  campos ≠ [] →
  Forall (λ f, crlf = false → tiene_CR f = false) campos →
  ∀ fila filas resto,
    fila ≠ [] ∨ campos ≠ [""] →
    leer Inicio "" fila filas
         (unir_campos (escribir_campo crlf <$> campos)
          +:+ linesep crlf +:+ resto)
    = leer Inicio "" [] (filas ++ [fila ++ campos]) resto.
Proof.
  induction campos as [|f [|g l] IH]; intros Hne HCR fila filas resto Hv;
    [done| |].
  - apply Forall_cons in HCR as [HCR _].
    apply leer_campo_linesep; [done|].
    destruct Hv as [|Hv]; [by left|right]. by intros ->.
  - apply Forall_cons in HCR as [HCRf HCR].
    change (unir_campos (escribir_campo crlf <$> f :: g :: l))
      with (escribir_campo crlf f
            +:+ String coma (unir_campos (escribir_campo crlf <$> g :: l))).
    rewrite string_app_assoc.
    change (String coma ?s +:+ ?t) with (String coma (s +:+ t)).
    rewrite leer_campo_coma, IH; [|done|done|left; by destruct fila|done].
    by rewrite <- app_assoc.
Qed.

Lemma leer_writerow (crlf : bool) (fila : list string)
    (filas : list (list string)) (resto : string) :
  fila ≠ [] →
  Forall (λ f, crlf = false → tiene_CR f = false) fila →
  leer Inicio "" [] filas (writerow crlf fila +:+ resto)
  = leer Inicio "" [] (filas ++ [fila]) resto.
Proof.
  intros Hne HCR.
  assert (Hgen : fila ≠ [""] →
                 leer Inicio "" [] filas
                   ((unir_campos (escribir_campo crlf <$> fila)
                     +:+ linesep crlf) +:+ resto)
                 = leer Inicio "" [] (filas ++ [fila]) resto).
  { intros Hv. rewrite string_app_assoc.
    rewrite leer_campos by (done || by right). done. }
  destruct fila as [|[|c f] [|g l]]; [done| |by apply Hgen..].
  change (writerow crlf [""] +:+ resto)
    with (String comilla (String comilla (linesep crlf +:+ resto))).
  cbn [leer]. rewrite !decide_True by done.
  by rewrite leer_linesep.
Qed.

Lemma leer_writerows (crlf : bool) (nuevas : list (list string)) :
  Forall (λ fila, fila ≠ []) nuevas →
  Forall (Forall (λ f, crlf = false → tiene_CR f = false)) nuevas →
  ∀ filas, leer Inicio "" [] filas (writerows crlf nuevas)
           = filas ++ nuevas.
Proof.
  induction 1 as [|fila nuevas Hfila _ IH]; intros HCR filas.
  - by rewrite app_nil_r.
  - apply Forall_cons in HCR as [HCRf HCR].
    cbn [writerows]. rewrite leer_writerow by done.
    by rewrite IH, <- app_assoc.
Qed.

(** The decimal form of an integer holds no CR. *)
Lemma pretty_N_go_sin_CR (x : N) (s : string) :
  tiene_CR s = false → tiene_CR (pretty_N_go x s) = false.
Proof.
  revert s. induction (N.lt_wf_0 x) as [x _ IH]; intros s Hs.
  assert (x = 0 ∨ 0 < x)%N as [->|Hx] by lia.
  - by rewrite pretty_N_go_0.
  - rewrite pretty_N_go_step by done. apply IH.
    { by apply N.div_lt. }
    cbn [tiene_CR]. rewrite Hs, orb_false_r.
    apply bool_decide_eq_false. unfold pretty_N_char, CR.
    by repeat case_match.
Qed.

Lemma pretty_Z_sin_CR (z : Z) : tiene_CR (pretty z) = false.
Proof.
  assert (HN : ∀ n : N, tiene_CR (pretty n) = false).
  { intros n. unfold pretty, pretty_N. case_decide; [done|].
    by apply pretty_N_go_sin_CR. }
  destruct z as [|p|p]; unfold pretty, pretty_Z; [done|apply HN|].
  exact (HN (N.pos p)).
Qed.




(** The table with the single row (StudentX, Math, 7.0, 2), with LF line
    ends, given that [repr] writes 7.0 as it does in Python. *)
Lemma csv_summary_StudentX (repr_float : float → string) :
  repr_float 7%float = "7.0" →
  csv_summary repr_float false
    (mk_DataFrame ["Alumno"; "Materia"; "Promedio_Materia"; "Total_Notas"]
                  [mk_resumen "StudentX" "Math" 7 2])
  = "Alumno,Materia,Promedio_Materia,Total_Notas"
    +:+ String LF ("StudentX,Math,7.0,2" +:+ String LF "").
Proof.
  intros Hrepr. unfold csv_summary, to_csv, textos_resumen.
  cbn [columns filas fmap list_fmap r_Alumno r_Materia Promedio_Materia
       Total_Notas].
  rewrite Hrepr. vm_compute. reflexivity.
Qed.

(** * Further properties of the handlers *)

(** ** Registering a student *)

(** X1. Registering a student in a store with primary keys gives the new
    row an id that no stored student has, and fetching that id afterwards
    returns exactly one row, with the name, age and grade entered.  The
    rows already stored and the other three tables are untouched. *)
Theorem guardar_alumno_y_consultar (nombre : string) (edad : Z)
    (grado : string) (e : estado) :
  claves_primarias (escuela e) →
  let d := final (guardar_alumno nombre edad grado) e in
  let id := seq_alumnos (escuela e) + 1 in
  select_alumno id d = [mk_alumno id nombre edad grado] ∧
  (id ∉ (al_id <$> alumnos (escuela e))) ∧
  alumnos d = alumnos (escuela e) ++ [mk_alumno id nombre edad grado] ∧
  materias d = materias (escuela e) ∧
  asignaciones d = asignaciones (escuela e) ∧
  calificaciones d = calificaciones (escuela e).
Proof.
  intros Hpk d id.
  assert (Hold : Forall (λ a, al_id a ≠ id) (alumnos (escuela e))).
  { eapply Forall_impl; [apply (seq_alumnos_max _ Hpk)|].
    intros a Ha. unfold id. simpl in Ha. lia. }
  split; [|split; [|done]].
  - unfold select_alumno, d, final. simpl.
    rewrite filter_app, (filter_none _ _ Hold).
    by rewrite filter_cons_True, filter_nil.
  - intros (a & Hid & Ha)%list_elem_of_fmap.
    rewrite Forall_forall in Hold. by apply (Hold a Ha).
Qed.

Lemma guardar_alumno_y_consultar_witness :
  let e := mk_estado init_db "2024-03-01" [] in
  let d := final (guardar_alumno "Ana" 12 "6A") e in
  let id := seq_alumnos (escuela e) + 1 in
  select_alumno id d = [mk_alumno id "Ana" 12 "6A"] ∧
  (id ∉ (al_id <$> alumnos (escuela e))) ∧
  alumnos d = alumnos (escuela e) ++ [mk_alumno id "Ana" 12 "6A"] ∧
  materias d = materias (escuela e) ∧
  asignaciones d = asignaciones (escuela e) ∧
  calificaciones d = calificaciones (escuela e).
Proof.
  apply (guardar_alumno_y_consultar "Ana" 12 "6A"
           (mk_estado init_db "2024-03-01" [])).
  apply init_db_claves_primarias.
Defined.

(** ** Ids are not handed out twice *)

Lemma execute_id_retirado (i : Z) (hoy : string) (q : sentencia) (d : DB) :
  i ≤ seq_alumnos d → i ∉ (al_id <$> alumnos d) →
  i ≤ seq_alumnos (execute hoy q d)
  ∧ i ∉ (al_id <$> alumnos (execute hoy q d)).
Proof.
  intros Hseq Hi. destruct q; simpl; try done.
  - split; [lia|]. rewrite fmap_app, elem_of_app.
    intros [?|Hnew]; [done|].
    apply list_elem_of_singleton in Hnew. simpl in Hnew. lia.
  - split; [done|]. rewrite <- list_fmap_compose.
    erewrite list_fmap_ext; [exact Hi|].
    intros k a _. simpl. by destruct (decide _).
  - split; [done|]. intros (a & Hid & Ha)%list_elem_of_fmap.
    apply list_elem_of_filter in Ha as [_ Ha].
    apply Hi. apply list_elem_of_fmap. by exists a.
Qed.

Lemma ejecutar_id_retirado (i : Z) (guion : list (string * sentencia)) :
  ∀ d, i ≤ seq_alumnos d → i ∉ (al_id <$> alumnos d) →
       i ∉ (al_id <$> alumnos (ejecutar guion d)).
Proof.
  induction guion as [|[hoy q] guion IH]; intros d Hseq Hi; [done|].
  destruct (execute_id_retirado i hoy q d Hseq Hi) as [Hseq' Hi'].
  by apply (IH _ Hseq' Hi').
Qed.

(** X2. The id of a deleted student is never given to another one: in a
    store with primary keys, after "Borrar Alumno" on a registered id,
    no sequence of statements, whatever they are, brings back a student
    row with that id. *)
Theorem id_de_alumno_no_se_reutiliza (i : Z) (e : estado)
    (guion : list (string * sentencia)) :
  claves_primarias (escuela e) →
  i ∈ (al_id <$> alumnos (escuela e)) →
  i ∉ (al_id <$> alumnos (ejecutar guion (final (borrar_alumno i) e))).
Proof.
  intros Hpk (a & -> & Ha)%list_elem_of_fmap.
  apply ejecutar_id_retirado.
  - pose proof (seq_alumnos_max _ Hpk) as Hmax.
    rewrite Forall_forall in Hmax. apply (Hmax a Ha).
  - intros (a' & Hid & Ha')%list_elem_of_fmap.
    unfold final in Ha'. simpl in Ha'.
    by apply list_elem_of_filter in Ha' as [Hne _].
Qed.

Lemma id_de_alumno_no_se_reutiliza_witness :
  1 ∉ (al_id <$> alumnos
         (ejecutar [("2024-04-01", INSERT_alumnos "Ana" 12 "6A");
                    ("2024-04-02", INSERT_alumnos "Luis" 11 "5B")]
            (final (borrar_alumno 1) e_ejemplo_materias))).
Proof.
  apply (id_de_alumno_no_se_reutiliza 1 e_ejemplo_materias
           [("2024-04-01", INSERT_alumnos "Ana" 12 "6A");
            ("2024-04-02", INSERT_alumnos "Luis" 11 "5B")]).
  - split; simpl; try by_decide.
    all: repeat constructor; simpl; lia.
  - by_decide.
Defined.

(** ** What the report query returns *)

Lemma select_boletin_elem (s : Z) (d : DB) (r : fila) :
  r ∈ select_boletin s d ↔
  ∃ c a m, c ∈ calificaciones d ∧ ca_alumno_id c = s ∧
           a ∈ alumnos d ∧ al_id a = s ∧
           m ∈ materias d ∧ ma_id m = ca_materia_id c ∧
           r = mk_fila (al_nombre a) (ma_nombre m) (ca_nota c) (ca_fecha c).
Proof.
  unfold select_boletin. rewrite ordenar_Permutation.
  rewrite list_elem_of_bind. split.
  - intros (c & Hr & Hc). apply list_elem_of_filter in Hc as [Hs Hc].
    apply list_elem_of_bind in Hr as (a & Hr & Ha).
    apply list_elem_of_filter in Ha as [Hida Ha].
    apply list_elem_of_bind in Hr as (m & Hr & Hm).
    apply list_elem_of_filter in Hm as [Hidm Hm].
    apply list_elem_of_singleton in Hr.
    exists c, a, m. repeat split; try done. congruence.
  - intros (c & a & m & Hc & Hs & Ha & Hida & Hm & Hidm & ->).
    exists c. split; [|by apply list_elem_of_filter].
    apply list_elem_of_bind. exists a.
    split; [|apply list_elem_of_filter; split; [congruence|done]].
    apply list_elem_of_bind. exists m.
    split; [|by apply list_elem_of_filter].
    by apply list_elem_of_singleton.
Qed.

Lemma filter_id_length {A} (f : A → Z) (l : list A) (i : Z) :
  NoDup (f <$> l) →
  length (filter (λ y, f y = i) l) = if decide (i ∈ f <$> l) then 1%nat else 0%nat.
Proof.
  intros Hnd. destruct (decide (i ∈ f <$> l)) as [Hin|Hnin].
  - apply list_elem_of_fmap in Hin as (x & -> & Hx).
    by rewrite (filter_eq_unique f l x Hnd Hx).
  - rewrite filter_none; [done|]. apply Forall_forall.
    intros y Hy Heq. apply Hnin. rewrite <- Heq.
    by apply list_elem_of_fmap_2.
Qed.

Lemma length_bind_const {A B} (f : A → list B) (l : list A) (n : nat) :
  Forall (λ x, length (f x) = n) l → length (l ≫= f) = (length l * n)%nat.
Proof.
  induction 1 as [|x l Hx _ IH]; [done|].
  rewrite bind_cons, length_app, IH, Hx. simpl. lia.
Qed.

(** X3. The detail table has one row per grade of the student whose
    subject still exists, and none at all when no student row has the
    id: with primary keys on students and subjects, its number of rows
    is the number of grade rows of the id that refer to an existing
    subject.  Grades left behind by a deleted subject are not shown. *)
Theorem select_boletin_length (s : Z) (d : DB) :
  NoDup (al_id <$> alumnos d) → NoDup (ma_id <$> materias d) →
  length (select_boletin s d)
  = if decide (s ∈ al_id <$> alumnos d)
    then length (filter (λ c, ca_alumno_id c = s
                              ∧ ca_materia_id c ∈ ma_id <$> materias d)
                        (calificaciones d))
    else 0%nat.
Proof.
  intros Ha Hm. unfold select_boletin. rewrite ordenar_Permutation.
  destruct (decide (s ∈ al_id <$> alumnos d)) as [Hin|Hnin].
  - induction (calificaciones d) as [|c l IH]; [done|].
    rewrite !filter_cons.
    destruct (decide (ca_alumno_id c = s)) as [Hs|Hs]; cycle 1.
    { rewrite decide_False by (by intros [? _]). exact IH. }
    rewrite bind_cons, length_app, IH. clear IH.
    rewrite (length_bind_const _ _
               (if decide (ca_materia_id c ∈ ma_id <$> materias d)
                then 1 else 0)%nat); cycle 1.
    { apply Forall_forall. intros a _.
      rewrite (length_bind_const _ _ 1%nat).
      + rewrite (filter_id_length ma_id _ _ Hm). lia.
      + by apply Forall_forall. }
    rewrite Hs, (filter_id_length al_id _ s Ha), decide_True by done.
    destruct (decide (ca_materia_id c ∈ ma_id <$> materias d)).
    + rewrite decide_True by done. simpl. lia.
    + rewrite decide_False by (by intros [_ ?]). simpl. lia.
  - induction (calificaciones d) as [|c l IH]; [done|].
    rewrite filter_cons.
    destruct (decide (ca_alumno_id c = s)) as [Hs|Hs]; [|exact IH].
    rewrite bind_cons, length_app, IH.
    rewrite (filter_none (λ a, al_id a = ca_alumno_id c)); [done|].
    apply Forall_forall. intros a Hel Heq. apply Hnin.
    rewrite <- Hs, <- Heq. by apply list_elem_of_fmap_2.
Qed.

Lemma select_boletin_length_witness :
  length (select_boletin 1 d_boletin)
  = if decide (1 ∈ al_id <$> alumnos d_boletin)
    then length (filter (λ c, ca_alumno_id c = 1
                              ∧ ca_materia_id c
                                ∈ ma_id <$> materias d_boletin)
                        (calificaciones d_boletin))
    else 0%nat.
Proof.
  apply (select_boletin_length 1 d_boletin); by_decide.
Defined.

(** ** Editing a student *)

Lemma fmap_bind {A B C} (h : B → C) (F : A → list B) (l : list A) :
  h <$> (l ≫= F) = l ≫= (λ x, h <$> F x).
Proof.
  induction l as [|x l IH]; [done|].
  by rewrite !bind_cons, fmap_app, IH.
Qed.

Lemma bind_ext_elem {A B} (F G : A → list B) (l : list A) :
  (∀ x, x ∈ l → F x = G x) → l ≫= F = l ≫= G.
Proof.
  induction l as [|x l IH]; intros Hext; [done|].
  rewrite !bind_cons, (Hext x) by left.
  rewrite IH; [done|]. intros y Hy. apply Hext. by right.
Qed.

Lemma filter_id_update (nombre : string) (edad : Z) (grado : string)
    (id i : Z) (l : list alumno) :
  filter (λ a, al_id a = i)
         ((λ a, if decide (al_id a = id)
                then mk_alumno (al_id a) nombre edad grado else a) <$> l)
  = (λ a, if decide (al_id a = id)
          then mk_alumno (al_id a) nombre edad grado else a)
    <$> filter (λ a, al_id a = i) l.
Proof.
  induction l as [|a l IH]; [done|].
  rewrite fmap_cons, !filter_cons, IH.
  assert (Hid : al_id (if decide (al_id a = id)
                       then mk_alumno (al_id a) nombre edad grado else a)
                = al_id a) by (by destruct (decide _)).
  rewrite Hid. by destruct (decide (al_id a = i)).
Qed.

(** X4. "Actualizar" changes the name, age and grade of the student rows
    with the selected id and nothing else: every row keeps its id, rows
    of other ids and the other three tables are as before.  The report
    follows: for the edited id it is the report from before with the new
    name in the Alumno column, same grades in the same order; for any
    other id it is unchanged. *)
Theorem actualizar_alumno_y_boletin (new_nombre : string) (new_edad : Z)
    (new_grado : string) (id_sel : Z) (e : estado) :
  let d := final (actualizar_alumno new_nombre new_edad new_grado id_sel) e in
  al_id <$> alumnos d = al_id <$> alumnos (escuela e) ∧
  filter (λ a, al_id a ≠ id_sel) (alumnos d)
    = filter (λ a, al_id a ≠ id_sel) (alumnos (escuela e)) ∧
  Forall (λ a, a = mk_alumno id_sel new_nombre new_edad new_grado)
         (select_alumno id_sel d) ∧
  materias d = materias (escuela e) ∧
  asignaciones d = asignaciones (escuela e) ∧
  calificaciones d = calificaciones (escuela e) ∧
  select_boletin id_sel d
    = con_nombre new_nombre <$> select_boletin id_sel (escuela e) ∧
  (∀ s, s ≠ id_sel → select_boletin s d = select_boletin s (escuela e)).
Proof.
  set (upd := λ a, if decide (al_id a = id_sel)
                   then mk_alumno (al_id a) new_nombre new_edad new_grado
                   else a).
  intros d.
  assert (Hal : alumnos d = upd <$> alumnos (escuela e)) by done.
  assert (Hid : ∀ a, al_id (upd a) = al_id a).
  { intros a. unfold upd. by destruct (decide _). }
  split; [|split; [|split; [|split; [done|split; [done|split; [done|split]]]]]].
  - rewrite Hal, <- list_fmap_compose. apply list_fmap_ext.
    intros k a _. apply Hid.
  - rewrite Hal. clear Hal.
    induction (alumnos (escuela e)) as [|a l IH]; [done|].
    rewrite fmap_cons, !filter_cons, IH, Hid.
    destruct (decide (al_id a ≠ id_sel)) as [Hne|]; [|done].
    unfold upd. by rewrite decide_False.
  - unfold select_alumno. rewrite Hal. apply Forall_forall. intros a Ha.
    apply list_elem_of_filter in Ha as [Hida Ha].
    apply list_elem_of_fmap in Ha as (a0 & -> & _).
    rewrite Hid in Hida. unfold upd. rewrite decide_True by done.
    by rewrite Hida.
  - unfold select_boletin.
    rewrite <- (ordenar_fmap orden_boletin orden_boletin
                  (con_nombre new_nombre)) by done.
    f_equal. rewrite fmap_bind. apply bind_ext_elem. intros c Hc.
    apply list_elem_of_filter in Hc as [Hs _].
    rewrite Hal. unfold upd. rewrite filter_id_update, list_fmap_bind.
    rewrite fmap_bind. apply bind_ext_elem. intros a Ha.
    apply list_elem_of_filter in Ha as [Hida _]. simpl.
    rewrite decide_True by congruence. by rewrite fmap_bind.
  - intros s Hs. unfold select_boletin. f_equal.
    apply bind_ext_elem. intros c Hc.
    apply list_elem_of_filter in Hc as [Hcs _].
    rewrite Hal. unfold upd. rewrite filter_id_update, list_fmap_bind.
    apply bind_ext_elem. intros a Ha.
    apply list_elem_of_filter in Ha as [Hida _]. simpl.
    by rewrite decide_False by congruence.
Qed.

(** ** Picking a student or a subject by name *)

Lemma dict_comp_snoc (data : list (Z * string)) (i : Z) (n : string) :
  dict_comp (data ++ [(i, n)]) = <[n := i]> (dict_comp data).
Proof. unfold dict_comp. by rewrite foldl_app. Qed.

Lemma dict_comp_fmap_ultimo {A} (fid : A → Z) (fnombre : A → string)
    (l : list A) (k : string) :
  dict_comp ((λ x, (fid x, fnombre x)) <$> l) !! k
  = fid <$> last (filter (λ x, fnombre x = k) l).
Proof.
  induction l as [|x l IH] using rev_ind; [done|].
  rewrite fmap_app, fmap_cons, fmap_nil, dict_comp_snoc, filter_app.
  rewrite filter_cons, filter_nil.
  destruct (decide (fnombre x = k)) as [->|Hne].
  - by rewrite lookup_insert_eq, last_snoc.
  - by rewrite lookup_insert_ne, app_nil_r.
Qed.

Lemma dict_comp_fmap_clave {A} (fid : A → Z) (fnombre : A → string)
    (l : list A) (n : string) :
  is_Some (dict_comp ((λ x, (fid x, fnombre x)) <$> l) !! n)
  ↔ n ∈ fnombre <$> l.
Proof.
  rewrite dict_comp_fmap_ultimo, fmap_is_Some, last_is_Some. split.
  - intros Hne. destruct (filter _ l) as [|x r] eqn:Hf; [done|].
    apply filter_hd_elem in Hf as [Hx <-]. by apply list_elem_of_fmap_2.
  - intros (x & -> & Hx)%list_elem_of_fmap Hnil.
    by apply (filter_nil_not_elem_of _ _ x Hnil).
Qed.

Lemma fmap_pares (l : list (Z * string)) : (λ p, (p.1, p.2)) <$> l = l.
Proof.
  induction l as [|[i k] l IH]; [done|].
  rewrite fmap_cons. simpl. by f_equal.
Qed.

(** X5. A dictionary keyed by name reaches, among the rows that share a
    name, only the one listed last.  The student dictionary, built on
    the assignment page and on the grades page, maps a name to the id of
    the last student registered with it; the subject dictionary of the
    assignment page maps a name to the id of the last subject created
    with it; a name is a key of either exactly when some row carries
    it.  The subject dictionary of the grade entry tab is built from
    the rows the student's plan joins with, and maps a name to the
    subject of the last of those rows: that need not be the subject
    created last. *)
Theorem dict_por_nombre_ultimo (d : DB) (n : string) :
  dict_alumnos d !! n
    = al_id <$> last (filter (λ a, al_nombre a = n) (alumnos d)) ∧
  dict_materias d !! n
    = ma_id <$> last (filter (λ m, ma_nombre m = n) (materias d)) ∧
  (is_Some (dict_alumnos d !! n) ↔ n ∈ al_nombre <$> alumnos d) ∧
  (is_Some (dict_materias d !! n) ↔ n ∈ ma_nombre <$> materias d) ∧
  (∀ id_alumno_calif,
     dict_comp (select_materias_asignadas id_alumno_calif d) !! n
     = fst <$> last (filter (λ p, p.2 = n)
                            (select_materias_asignadas id_alumno_calif d))).
Proof.
  unfold dict_alumnos, dict_materias, select_alumnos_id_nombre,
    select_materias_id_nombre.
  split; [apply dict_comp_fmap_ultimo|].
  split; [apply dict_comp_fmap_ultimo|].
  split; [apply dict_comp_fmap_clave|].
  split; [apply dict_comp_fmap_clave|].
  intros id.
  rewrite <- (fmap_pares (select_materias_asignadas id d)) at 1.
  apply (dict_comp_fmap_ultimo fst snd).
Qed.

(** ** The assignment page *)

Lemma asignar_materias_unfold (alumno_sel : string) (nuevas : list string)
    (e : estado) (id : Z) :
  alumnos (escuela e) ≠ [] → materias (escuela e) ≠ [] →
  dict_alumnos (escuela e) !! alumno_sel = Some id →
  asignar_materias alumno_sel nuevas e
  = guardar_asignaciones (dict_materias (escuela e)) id nuevas e.
Proof.
  intros Ha Hm Hid.
  unfold asignar_materias, mbind, M_bind, run_select. cbn beta iota.
  change (dict_comp (select_alumnos_id_nombre (escuela e)))
    with (dict_alumnos (escuela e)).
  change (dict_comp (select_materias_id_nombre (escuela e)))
    with (dict_materias (escuela e)).
  destruct (select_alumnos_id_nombre (escuela e)) as [|pa la] eqn:Hsa.
  { by apply fmap_nil_inv in Hsa. }
  destruct (select_materias_id_nombre (escuela e)) as [|pm lm] eqn:Hsm.
  { by apply fmap_nil_inv in Hsm. }
  unfold getitem. by rewrite Hid.
Qed.

Lemma lookup_todos (dict : gmap string Z) (P : string → Z → Prop)
    (nuevas : list string) :
  Forall (λ n, ∃ i, dict !! n = Some i ∧ P n i) nuevas →
  ∃ ids, mapM (dict !!.) nuevas = Some ids ∧ Forall2 P nuevas ids.
Proof.
  induction 1 as [|n r (i & Hi & HP) _ (ids & Hids & HF)].
  - by exists [].
  - exists (i :: ids). split; [|by constructor].
    apply mapM_Some. constructor; [done|]. by apply mapM_Some.
Qed.

Lemma dict_materias_completo (d : DB) (n : string) :
  n ∈ (ma_nombre <$> materias d) →
  ∃ i, dict_materias d !! n = Some i
       ∧ ∃ m, m ∈ materias d ∧ ma_nombre m = n ∧ ma_id m = i.
Proof.
  intros Hn.
  apply (dict_comp_fmap_clave ma_id ma_nombre) in Hn as [i Hi].
  exists i. split; [done|].
  apply dict_comp_lookup in Hi.
  apply list_elem_of_fmap in Hi as (m & [= -> ->] & Hm). by exists m.
Qed.

Lemma dict_alumnos_completo (d : DB) (n : string) :
  n ∈ (al_nombre <$> alumnos d) →
  ∃ i, dict_alumnos d !! n = Some i
       ∧ ∃ a, a ∈ alumnos d ∧ al_nombre a = n ∧ al_id a = i.
Proof.
  intros Hn.
  apply (dict_comp_fmap_clave al_id al_nombre) in Hn as [i Hi].
  exists i. split; [done|].
  apply dict_comp_lookup in Hi.
  apply list_elem_of_fmap in Hi as (a & [= -> ->] & Ha). by exists a.
Qed.

(** X6. A click on "Guardar Asignaciones", for a registered student name
    and subject names of the catalog, raises nothing and leaves the
    student the dictionary gives for the name with exactly the selected
    subjects: the plan lists, in the order selected, the id of a
    subject of the catalog carrying each selected name, and the student
    id is that of a registered student with the selected name.  Every
    row written thus refers to an existing student and an existing
    subject. *)
Theorem asignar_materias_guarda (alumno_sel : string) (nuevas : list string)
    (e : estado) :
  alumno_sel ∈ (al_nombre <$> alumnos (escuela e)) →
  materias (escuela e) ≠ [] →
  Forall (λ n, n ∈ ma_nombre <$> materias (escuela e)) nuevas →
  ∃ id ids,
    dict_alumnos (escuela e) !! alumno_sel = Some id ∧
    resultado (asignar_materias alumno_sel nuevas) e = inr () ∧
    plan (final (asignar_materias alumno_sel nuevas) e) id = ids ∧
    Forall2 (λ n i, ∃ m, m ∈ materias (escuela e)
                         ∧ ma_nombre m = n ∧ ma_id m = i) nuevas ids ∧
    (∃ a, a ∈ alumnos (escuela e) ∧ al_nombre a = alumno_sel ∧ al_id a = id).
Proof.
  intros Hsel Hm Hnuevas.
  assert (Ha : alumnos (escuela e) ≠ []).
  { intros Hnil. rewrite Hnil in Hsel. by apply elem_of_nil in Hsel. }
  destruct (dict_alumnos_completo _ _ Hsel) as (id & Hid & Hal).
  destruct (lookup_todos (dict_materias (escuela e))
              (λ n i, ∃ m, m ∈ materias (escuela e)
                           ∧ ma_nombre m = n ∧ ma_id m = i) nuevas)
    as (ids & Hids & HF).
  { eapply Forall_impl; [exact Hnuevas|]. intros n Hn.
    by apply dict_materias_completo. }
  exists id, ids. split; [done|].
  unfold resultado, final.
  rewrite (asignar_materias_unfold _ _ _ id Ha Hm Hid).
  split; [by apply (guardar_asignaciones_resultado _ _ _ ids)|].
  split; [|done].
  by rewrite plan_guardar_asignaciones, (ids_encontrados_mapM _ _ ids).
Qed.

Lemma asignar_materias_guarda_witness :
  ∃ id ids,
    dict_alumnos (escuela e_ejemplo_materias) !! "Ana" = Some id ∧
    resultado (asignar_materias "Ana" ["Music"; "Math"]) e_ejemplo_materias
      = inr () ∧
    plan (final (asignar_materias "Ana" ["Music"; "Math"])
            e_ejemplo_materias) id = ids ∧
    Forall2 (λ n i, ∃ m, m ∈ materias (escuela e_ejemplo_materias)
                         ∧ ma_nombre m = n ∧ ma_id m = i)
            ["Music"; "Math"] ids ∧
    (∃ a, a ∈ alumnos (escuela e_ejemplo_materias)
          ∧ al_nombre a = "Ana" ∧ al_id a = id).
Proof.
  apply (asignar_materias_guarda "Ana" ["Music"; "Math"] e_ejemplo_materias).
  - by_decide.
  - done.
  - by_decide.
Defined.

(** X7. A missing subject name stops the save half-way: when the
    selection holds a name that is not a key of the dictionary, the
    lookup raises [KeyError] for that name after the student's old rows
    have been deleted and the names before it inserted, so the student
    is left with just the subjects selected before the missing name. *)
Theorem guardar_asignaciones_KeyError (dict : gmap string Z) (s : Z)
    (antes : list string) (n : string) (despues : list string)
    (ids : list Z) (e : estado) :
  mapM (dict !!.) antes = Some ids →
  dict !! n = None →
  (guardar_asignaciones dict s (antes ++ n :: despues) e).2
    = inl (KeyError n) ∧
  plan (escuela (guardar_asignaciones dict s (antes ++ n :: despues) e).1) s
    = ids.
Proof.
  intros Hantes Hn. split.
  - unfold guardar_asignaciones, mbind, M_bind. simpl.
    generalize (mk_estado
                  (set_asignaciones (filter (λ a, as_alumno_id a ≠ s))
                                    (escuela e))
                  (hoy e)
                  (confirmados e
                   ++ [set_asignaciones (filter (λ a, as_alumno_id a ≠ s))
                                        (escuela e)])).
    revert ids Hantes. induction antes as [|m r IH]; intros ids Hantes e0.
    + simpl. unfold mbind, M_bind, getitem. by rewrite Hn.
    + apply mapM_Some in Hantes.
      apply Forall2_cons_inv_l in Hantes as (i & ids' & Hm & Hr & ->).
      simpl. unfold mbind, M_bind, getitem at 1. rewrite Hm. simpl.
      apply (IH ids'). by apply mapM_Some.
  - rewrite plan_guardar_asignaciones.
    revert ids Hantes. induction antes as [|m r IH]; intros ids Hantes.
    + simpl. rewrite Hn. by injection Hantes.
    + apply mapM_Some in Hantes.
      apply Forall2_cons_inv_l in Hantes as (i & ids' & Hm & Hr & ->).
      simpl. rewrite Hm. f_equal. apply IH. by apply mapM_Some.
Qed.

Lemma guardar_asignaciones_KeyError_witness :
  (guardar_asignaciones dict_ejemplo 1 (["Art"] ++ "Latin" :: ["Math"])
     e_ejemplo_materias).2 = inl (KeyError "Latin") ∧
  plan (escuela
          (guardar_asignaciones dict_ejemplo 1
             (["Art"] ++ "Latin" :: ["Math"]) e_ejemplo_materias).1) 1
    = [2].
Proof.
  apply (guardar_asignaciones_KeyError dict_ejemplo 1 ["Art"] "Latin"
           ["Math"] [2] e_ejemplo_materias); vm_compute; reflexivity.
Defined.

(** ** Deleting a subject whose name is not in the catalog *)

(** X8. "Eliminar Materia" with a name that no subject carries removes
    nothing and commits nothing: on an empty catalog the handler does
    nothing at all, and otherwise indexing the empty selection raises
    [IndexError] before any statement is sent. *)
Theorem eliminar_materia_sin_coincidencia (del_materia : string)
    (e : estado) :
  del_materia ∉ (ma_nombre <$> materias (escuela e)) →
  (eliminar_materia del_materia e).1 = e ∧
  (eliminar_materia del_materia e).2
    = match materias (escuela e) with
      | [] => inr ()
      | _ => inl IndexError
      end.
Proof.
  intros Hno.
  assert (Hf : filter (λ m, ma_nombre m = del_materia) (materias (escuela e))
               = []).
  { apply filter_none, Forall_forall. intros m Hm Heq. apply Hno.
    rewrite <- Heq. by apply list_elem_of_fmap_2. }
  unfold eliminar_materia, mbind, M_bind, run_select. simpl.
  destruct (materias (escuela e)) as [|m ms]; [done|].
  by rewrite Hf.
Qed.

Lemma eliminar_materia_sin_coincidencia_witness :
  (eliminar_materia "Latin" e_ejemplo_materias).1 = e_ejemplo_materias ∧
  (eliminar_materia "Latin" e_ejemplo_materias).2
    = match materias (escuela e_ejemplo_materias) with
      | [] => inr ()
      | _ => inl IndexError
      end.
Proof.
  apply (eliminar_materia_sin_coincidencia "Latin" e_ejemplo_materias).
  apply (bool_decide_unpack (_ ∉ _)). vm_compute. exact I.
Defined.

(** ** The grade entry tab *)

Lemma select_materias_asignadas_elem (id : Z) (d : DB) (i : Z) (n : string) :
  (i, n) ∈ select_materias_asignadas id d ↔
  ∃ m a, m ∈ materias d ∧ a ∈ asignaciones d ∧
         ma_id m = as_materia_id a ∧ as_alumno_id a = id ∧
         i = ma_id m ∧ n = ma_nombre m.
Proof.
  unfold select_materias_asignadas. rewrite list_elem_of_bind. split.
  - intros (a & Hr & Ha). apply list_elem_of_filter in Ha as [Hal Ha].
    apply list_elem_of_bind in Hr as (m & Hr & Hm).
    apply list_elem_of_filter in Hm as [Hid Hm].
    apply list_elem_of_singleton in Hr. injection Hr as -> ->.
    by exists m, a.
  - intros (m & a & Hm & Ha & Hid & Hal & -> & ->).
    exists a. split; [|by apply list_elem_of_filter].
    apply list_elem_of_bind. exists m.
    split; [by apply list_elem_of_singleton|].
    by apply list_elem_of_filter.
Qed.

Lemma ingresar_nota_unfold (alumno_calif materia_calif : string)
    (nota : float) (e : estado) :
  ingresar_nota alumno_calif materia_calif nota e
  = match alumnos (escuela e) with
    | [] => (e, inr ())
    | _ =>
        match dict_alumnos (escuela e) !! alumno_calif with
        | None => (e, inl (KeyError alumno_calif))
        | Some id =>
            match select_materias_asignadas id (escuela e) with
            | [] => (e, inr ())
            | asignadas =>
                match dict_comp asignadas !! materia_calif with
                | None => (e, inl (KeyError materia_calif))
                | Some id_mat => guardar_nota id id_mat nota e
                end
            end
        end
    end.
Proof.
  unfold ingresar_nota, mbind, M_bind, run_select. cbn beta iota.
  change (dict_comp (select_alumnos_id_nombre (escuela e)))
    with (dict_alumnos (escuela e)).
  destruct (select_alumnos_id_nombre (escuela e)) as [|pa la] eqn:Hsa.
  { apply fmap_nil_inv in Hsa. by rewrite Hsa. }
  unfold select_alumnos_id_nombre in Hsa.
  destruct (alumnos (escuela e)) as [|a l]; [done|].
  unfold getitem at 1.
  destruct (dict_alumnos (escuela e) !! alumno_calif) as [id|]; [|done].
  unfold mret, M_ret. cbn beta iota.
  destruct (select_materias_asignadas id (escuela e)) as [|pm lm]; [done|].
  unfold getitem.
  by destruct (dict_comp (pm :: lm) !! materia_calif).
Qed.

(** X9. The grade entry tab never stores a grade outside the student's
    plan.  Whatever is selected and typed, a click on "Guardar Nota"
    either leaves the store as it is, or appends exactly one grade row,
    dated today, for the student the dictionary gives for the selected
    name and for a subject that is in that student's plan, exists in the
    catalog and carries the selected subject name. *)
Theorem ingresar_nota_en_plan (alumno_calif materia_calif : string)
    (nota : float) (e : estado) :
  let d := escuela (ingresar_nota alumno_calif materia_calif nota e).1 in
  d = escuela e ∨
  ∃ id id_mat m,
    dict_alumnos (escuela e) !! alumno_calif = Some id ∧
    m ∈ materias (escuela e) ∧ ma_id m = id_mat ∧
    ma_nombre m = materia_calif ∧
    id_mat ∈ plan (escuela e) id ∧
    calificaciones d
      = calificaciones (escuela e)
        ++ [mk_calificacion (seq_calificaciones (escuela e) + 1)
                            id id_mat nota (hoy e)] ∧
    alumnos d = alumnos (escuela e) ∧
    materias d = materias (escuela e) ∧
    asignaciones d = asignaciones (escuela e).
Proof.
  intros d. unfold d. rewrite ingresar_nota_unfold.
  destruct (alumnos (escuela e)) as [|a0 l0] eqn:Hal; [by left|].
  destruct (dict_alumnos (escuela e) !! alumno_calif) as [id|] eqn:Hid;
    [|by left].
  destruct (select_materias_asignadas id (escuela e)) as [|pm lm] eqn:Hsel;
    [by left|].
  destruct (dict_comp (pm :: lm) !! materia_calif) as [id_mat|] eqn:Hmat;
    [|by left].
  right. apply dict_comp_lookup in Hmat. rewrite <- Hsel in Hmat.
  apply select_materias_asignadas_elem in Hmat
    as (m & a & Hm & Ha & Hma & Haid & -> & ->).
  exists id, (ma_id m), m. repeat split; try done.
  unfold plan. rewrite Hma. apply list_elem_of_fmap_2.
  by apply list_elem_of_filter.
Qed.

(** X10. When none of the subjects in the student's plan exists in the
    catalog, in particular when the plan is empty, the grade entry tab
    offers no subject and a click writes nothing; neither page writes
    anything while no student is registered, and the assignment page
    writes nothing while the catalog is empty. *)
Theorem paginas_sin_datos (alumno_sel materia_calif : string)
    (nuevas : list string) (nota : float) (e : estado) :
  (alumnos (escuela e) = [] ∨ materias (escuela e) = [] →
   asignar_materias alumno_sel nuevas e = (e, inr ())) ∧
  (alumnos (escuela e) = [] →
   ingresar_nota alumno_sel materia_calif nota e = (e, inr ())) ∧
  (∀ id, dict_alumnos (escuela e) !! alumno_sel = Some id →
         Forall (λ i, i ∉ ma_id <$> materias (escuela e))
                (plan (escuela e) id) →
         ingresar_nota alumno_sel materia_calif nota e = (e, inr ())).
Proof.
  split; [|split].
  - intros Hvacio.
    unfold asignar_materias, mbind, M_bind, run_select,
      select_alumnos_id_nombre, select_materias_id_nombre.
    cbn beta iota.
    destruct Hvacio as [-> | ->]; [done|].
    by destruct (_ <$> alumnos (escuela e)).
  - intros Hvacio. rewrite ingresar_nota_unfold. by rewrite Hvacio.
  - intros id Hid Hplan. rewrite ingresar_nota_unfold, Hid.
    destruct (alumnos (escuela e)) as [|a0 l0]; [done|].
    destruct (select_materias_asignadas id (escuela e)) as [|[i n] lm] eqn:Hs;
      [done|].
    exfalso.
    assert (Hin : (i, n) ∈ select_materias_asignadas id (escuela e))
      by (rewrite Hs; left).
    apply select_materias_asignadas_elem in Hin
      as (m & a & Hm & Ha & Hma & Haid & -> & ->).
    rewrite Forall_forall in Hplan. apply (Hplan (ma_id m)).
    + unfold plan. rewrite Hma. apply list_elem_of_fmap_2.
      by apply list_elem_of_filter.
    + by apply list_elem_of_fmap_2.
Qed.

(** ** The summary in general *)

Lemma r_clave_groupby_agg (rows : list fila) :
  r_clave <$> groupby_agg rows
  = merge_sort clave_le (remove_dups (clave <$> rows)).
Proof.
  unfold groupby_agg. rewrite <- list_fmap_compose.
  rewrite <- (list_fmap_id (merge_sort _ _)) at 2.
  apply list_fmap_ext. intros i [a m] _. reflexivity.
Qed.

Lemma sum_list_fmap_add {A} (f g : A → nat) (l : list A) :
  sum_list ((λ x, f x + g x)%nat <$> l)
  = (sum_list (f <$> l) + sum_list (g <$> l))%nat.
Proof.
  induction l as [|x l IH]; [done|].
  rewrite !fmap_cons. simpl. lia.
Qed.

Lemma sum_indicador {A} `{EqDecision A} (K : list A) (x : A) :
  NoDup K →
  sum_list ((λ k, if decide (x = k) then 1 else 0)%nat <$> K)
  = if decide (x ∈ K) then 1%nat else 0%nat.
Proof.
  induction 1 as [|k K Hk _ IH]; [done|].
  rewrite fmap_cons. simpl. rewrite IH.
  destruct (decide (x = k)) as [Heq|Hne], (decide (x ∈ K)) as [HK|HK],
    (decide (x ∈ k :: K)) as [HkK|HkK]; subst; try done.
  - exfalso. apply HkK. left.
  - exfalso. apply HkK. by right.
  - exfalso. by apply elem_of_cons in HkK as [?|?].
Qed.

Lemma sum_grupos (K : list (string * string)) (rows : list fila) :
  NoDup K → Forall (λ r, clave r ∈ K) rows →
  sum_list ((λ k, length (filter (λ f, clave f = k) rows)) <$> K)
  = length rows.
Proof.
  intros HK. induction 1 as [|r rows Hr _ IH].
  - clear HK. induction K as [|k K IHK]; [done|].
    rewrite fmap_cons.
    change (sum_list (?x :: ?l)) with (x + sum_list l)%nat.
    by rewrite IHK.
  - erewrite (list_fmap_ext _
               (λ k, (if decide (clave r = k) then 1 else 0)
                     + length (filter (λ f, clave f = k) rows))%nat).
    + rewrite sum_list_fmap_add, IH, sum_indicador by done.
      by rewrite decide_True.
    + intros _ k _. rewrite filter_cons. by destruct (decide (clave r = k)).
Qed.

(** X11. The summary has one row per distinct (Alumno, Materia) pair of
    the detail table, listed in increasing key order: its keys are
    pairwise distinct and are exactly the keys of the detail rows.
    Every summary row counts the detail rows of its key, at least one,
    and the counts add up to the number of detail rows: every grade of
    the report is counted in exactly one summary row. *)
Theorem generate_report_data_resumen (s : Z) (d : DB) :
  let df := (generate_report_data s d).1 in
  let df_summary := (generate_report_data s d).2 in
  NoDup (r_clave <$> filas df_summary) ∧
  Sorted clave_le (r_clave <$> filas df_summary) ∧
  (∀ k, k ∈ r_clave <$> filas df_summary ↔ k ∈ clave <$> filas df) ∧
  Forall (λ r,
            let grupo := filter (λ f, clave f = r_clave r) (filas df) in
            Total_Notas r = Z.of_nat (length grupo) ∧
            1 ≤ Total_Notas r)
         (filas df_summary) ∧
  sum_list ((λ r, Z.to_nat (Total_Notas r)) <$> filas df_summary)
  = length (filas df).
Proof.
  intros df df_summary.
  destruct (decide (select_boletin s d = [])) as [Hnil|Hne].
  { unfold df, df_summary, generate_report_data. rewrite Hnil. simpl.
    repeat split; try constructor; done. }
  unfold df, df_summary.
  rewrite (generate_report_data_con_notas s d Hne). cbn [fst snd filas].
  set (rows := select_boletin s d).
  assert (HK : ∀ k, k ∈ r_clave <$> groupby_agg rows ↔ k ∈ clave <$> rows).
  { intros k. rewrite r_clave_groupby_agg, merge_sort_Permutation.
    apply elem_of_remove_dups. }
  assert (Hnd : NoDup (r_clave <$> groupby_agg rows)).
  { rewrite r_clave_groupby_agg, merge_sort_Permutation.
    apply NoDup_remove_dups. }
  split; [done|].
  split; [rewrite r_clave_groupby_agg; apply groupby_agg_ordenado|].
  split; [done|]. split.
  - apply Forall_forall. intros r Hr.
    assert (Hk : r_clave r ∈ clave <$> rows).
    { apply HK. by apply list_elem_of_fmap_2. }
    unfold groupby_agg in Hr.
    apply list_elem_of_fmap in Hr as ([a m] & -> & _). cbn.
    split; [done|].
    apply list_elem_of_fmap in Hk as (f & Hf & Hin).
    cbn in Hf.
    destruct (filter (λ f0, clave f0 = (a, m)) rows) as [|x l] eqn:Hfil.
    + exfalso. by apply (filter_nil_not_elem_of _ _ f Hfil).
    + simpl. lia.
  - rewrite <- (sum_grupos (r_clave <$> groupby_agg rows) rows Hnd).
    + rewrite <- !list_fmap_compose. f_equal.
      apply list_fmap_ext. intros i r Hi.
      apply list_elem_of_lookup_2 in Hi. unfold groupby_agg in Hi.
      apply list_elem_of_fmap in Hi as ([a m] & Heq & _). subst r. cbn.
      by rewrite Nat2Z.id.
    + apply Forall_forall. intros f Hf. apply HK.
      by apply list_elem_of_fmap_2.
Qed.

(** ** What the assignment page shows after a save *)

Lemma nombres_de_filas (d : DB) (nuevas : list string)
    (filas_alumno : list asignacion) :
  NoDup (ma_id <$> materias d) →
  Forall2 (λ n i, ∃ m, m ∈ materias d ∧ ma_nombre m = n ∧ ma_id m = i)
          nuevas (as_materia_id <$> filas_alumno) →
  (a ← filas_alumno;
   m ← filter (λ m, ma_id m = as_materia_id a) (materias d);
   [ma_nombre m]) = nuevas.
Proof.
  intros Hpk. revert nuevas.
  induction filas_alumno as [|a r IH]; intros nuevas HF.
  - rewrite fmap_nil in HF. by apply Forall2_nil_inv_r in HF as ->.
  - rewrite fmap_cons in HF.
    apply Forall2_cons_inv_r in HF
      as (n & ns & (m & Hm & <- & Hid) & Hr & ->).
    rewrite bind_cons, (IH ns Hr), <- Hid.
    by rewrite (filter_eq_unique ma_id _ m Hpk Hm).
Qed.

(** X12. Saving and reopening the assignment page shows what was saved:
    with distinct subject ids, after a save of subject names of the
    catalog, the name query that pre-fills the multiselect returns
    exactly the saved names, each as often as selected (in some
    order). *)
Theorem select_asignadas_tras_guardar (s : Z) (nuevas : list string)
    (e : estado) :
  NoDup (ma_id <$> materias (escuela e)) →
  Forall (λ n, n ∈ ma_nombre <$> materias (escuela e)) nuevas →
  select_asignadas s
    (escuela (guardar_asignaciones (dict_materias (escuela e)) s nuevas e).1)
  ≡ₚ nuevas.
Proof.
  intros Hpk Hnuevas.
  destruct (lookup_todos (dict_materias (escuela e))
              (λ n i, ∃ m, m ∈ materias (escuela e)
                           ∧ ma_nombre m = n ∧ ma_id m = i) nuevas)
    as (ids & Hids & HF).
  { eapply Forall_impl; [exact Hnuevas|]. intros n Hn.
    by apply dict_materias_completo. }
  unfold select_asignadas. rewrite filas_guardar_asignaciones.
  rewrite (ids_encontrados_mapM _ _ _ Hids).
  assert (Hmat : materias
                   (escuela (guardar_asignaciones
                               (dict_materias (escuela e)) s nuevas e).1)
                 = materias (escuela e)).
  { rewrite guardar_asignaciones_estado. cbn [escuela].
    by destruct (insertar_filas_marco (hoy e) s
                   (ids_encontrados (dict_materias (escuela e)) nuevas)
                   (execute (hoy e) (DELETE_asignaciones s) (escuela e)))
      as (_ & -> & _). }
  rewrite Hmat.
  rewrite (nombres_de_filas (escuela e) nuevas); [done|done|].
  by rewrite fmap_imap_materia_id.
Qed.

Lemma select_asignadas_tras_guardar_witness :
  select_asignadas 1
    (escuela (guardar_asignaciones
                (dict_materias (escuela e_ejemplo_materias)) 1
                ["Music"; "Math"] e_ejemplo_materias).1)
  ≡ₚ ["Music"; "Math"].
Proof.
  apply (select_asignadas_tras_guardar 1 ["Music"; "Math"]
           e_ejemplo_materias); by_decide.
Defined.

(** ** The states a student delete commits *)

(** X13. "Borrar Alumno" reaches the file in three commits: the first
    state has no row of the student id left in [alumnos] while every
    enrollment and grade row of the id is still stored, the second has
    lost the enrollment rows, and only the third, the final one, has
    lost the grades as well. *)
Theorem borrar_alumno_confirmados (id_sel : Z) (e : estado) :
  ∃ d1 d2 d3,
    confirmados (borrar_alumno id_sel e).1 = confirmados e ++ [d1; d2; d3] ∧
    d3 = final (borrar_alumno id_sel) e ∧
    select_alumno id_sel d1 = [] ∧
    asignaciones d1 = asignaciones (escuela e) ∧
    calificaciones d1 = calificaciones (escuela e) ∧
    plan d2 id_sel = [] ∧
    calificaciones d2 = calificaciones (escuela e).
Proof.
  eexists _, _, _. split.
  - unfold borrar_alumno, mbind, M_bind, run_query. cbn [fst snd confirmados
      escuela hoy mret M_ret].
    rewrite <- !app_assoc. reflexivity.
  - split; [done|]. split; [apply filter_ne_no_match|].
    split; [done|]. split; [done|]. split; [|done].
    apply (plan_delete (hoy e) id_sel).
Qed.

(** ** The report tab as a whole *)

(** X14. The report tab offers the workbook exactly when the report
    query returns at least one row.  The workbook then has the sheets
    "Resumen" and "Historial Completo", in this order, with the four
    column names as headers; every data row has four cells, the history
    sheet has one data row per row of the query, in the same order, and
    the summary sheet has at least one data row. *)
Theorem tab_reporte_libro (id_alumno_reporte : Z) (d : DB) :
  match tab_reporte id_alumno_reporte d with
  | None => select_boletin id_alumno_reporte d = []
  | Some libro =>
      select_boletin id_alumno_reporte d ≠ [] ∧
      sheet_name <$> libro = ["Resumen"; "Historial Completo"] ∧
      encabezado <$> libro
        = [["Alumno"; "Materia"; "Promedio_Materia"; "Total_Notas"];
           ["Alumno"; "Materia"; "Calificacion"; "Fecha"]] ∧
      Forall (λ h, Forall (λ celdas, length celdas = 4%nat) (cuerpo h))
             libro ∧
      (cuerpo <$> libro) !! 1%nat
        = Some (celdas_fila <$> select_boletin id_alumno_reporte d) ∧
      (∃ c r, (cuerpo <$> libro) !! 0%nat = Some (c :: r))
  end.
Proof.
  unfold tab_reporte.
  destruct (decide (select_boletin id_alumno_reporte d = [])) as [Hnil|Hne].
  { unfold generate_report_data. by rewrite Hnil. }
  rewrite (generate_report_data_con_notas _ _ Hne).
  destruct (select_boletin id_alumno_reporte d) as [|f fs] eqn:Hsel; [done|].
  unfold exportar_boletin, empty. cbn [columns filas negb].
  rewrite boletin_excel_hojas. cbn [fmap list_fmap columns filas sheet_name
    encabezado cuerpo].
  split; [done|]. split; [done|]. split; [done|]. split.
  - repeat constructor; cbn [cuerpo].
    + apply Forall_fmap, Forall_forall. by intros r _.
    + apply Forall_fmap, Forall_forall. by intros r _.
  - split; [done|].
    assert (Hk : clave f ∈ r_clave <$> groupby_agg (f :: fs)).
    { rewrite r_clave_groupby_agg, merge_sort_Permutation.
      apply elem_of_remove_dups. rewrite fmap_cons. left. }
    destruct (groupby_agg (f :: fs)) as [|r rs]; [by apply elem_of_nil in Hk|].
    by eexists _, _.
Qed.

(** ** Every handler keeps the primary keys *)

Lemma conserva_mret {A} (x : A) : conserva_alcanzable (mret x).
Proof. by intros e He. Qed.

Lemma conserva_raise {A} (ex : excepcion) : conserva_alcanzable (@raise A ex).
Proof. by intros e He. Qed.

Lemma conserva_run_select {A} (consulta : DB → A) :
  conserva_alcanzable (run_select consulta).
Proof. by intros e He. Qed.

Lemma conserva_run_query (q : sentencia) : conserva_alcanzable (run_query q).
Proof. intros e He. simpl. by constructor. Qed.

Lemma conserva_getitem (dict : gmap string Z) (k : string) :
  conserva_alcanzable (getitem dict k).
Proof. intros e He. unfold getitem. by destruct (dict !! k). Qed.

Lemma conserva_bind {A B} (m : M A) (f : A → M B) :
  conserva_alcanzable m → (∀ x, conserva_alcanzable (f x)) →
  conserva_alcanzable (m ≫= f).
Proof.
  intros Hm Hf e He. unfold mbind, M_bind.
  specialize (Hm e He). destruct (m e) as [e' [ex|x]]; [done|].
  by apply Hf.
Qed.

Lemma conserva_query_unit (q : sentencia) :
  conserva_alcanzable (run_query q;; mret ()).
Proof.
  apply conserva_bind; [apply conserva_run_query|].
  intros _. apply conserva_mret.
Qed.

Lemma conserva_insertar_asignaciones dict id nuevas :
  conserva_alcanzable (insertar_asignaciones dict id nuevas).
Proof.
  induction nuevas as [|n r IH]; [apply conserva_mret|].
  apply conserva_bind; [apply conserva_getitem|]. intros i.
  apply conserva_bind; [apply conserva_run_query|]. by intros _.
Qed.

Lemma conserva_guardar_asignaciones dict id nuevas :
  conserva_alcanzable (guardar_asignaciones dict id nuevas).
Proof.
  apply conserva_bind; [apply conserva_run_query|]. intros _.
  apply conserva_insertar_asignaciones.
Qed.

Lemma conserva_asignar_materias alumno_sel nuevas :
  conserva_alcanzable (asignar_materias alumno_sel nuevas).
Proof.
  apply conserva_bind; [apply conserva_run_select|]. intros la.
  apply conserva_bind; [apply conserva_run_select|]. intros lm.
  destruct la as [|pa la], lm as [|pm lm]; try apply conserva_mret.
  apply conserva_bind; [apply conserva_getitem|]. intros id.
  apply conserva_guardar_asignaciones.
Qed.

Lemma conserva_eliminar_materia del_materia :
  conserva_alcanzable (eliminar_materia del_materia).
Proof.
  apply conserva_bind; [apply conserva_run_select|]. intros df_mat.
  destruct df_mat as [|m0 ms]; [apply conserva_mret|].
  destruct (filter _ (m0 :: ms)) as [|m r]; [apply conserva_raise|].
  apply conserva_bind; [apply conserva_run_query|]. intros _.
  apply conserva_mret.
Qed.

Lemma conserva_ingresar_nota alumno_calif materia_calif nota :
  conserva_alcanzable (ingresar_nota alumno_calif materia_calif nota).
Proof.
  apply conserva_bind; [apply conserva_run_select|]. intros la.
  destruct la as [|pa la]; [apply conserva_mret|].
  apply conserva_bind; [apply conserva_getitem|]. intros id.
  apply conserva_bind; [apply conserva_run_select|]. intros lm.
  destruct lm as [|pm lm]; [apply conserva_mret|].
  apply conserva_bind; [apply conserva_getitem|]. intros id_mat.
  apply conserva_bind; [apply conserva_run_query|]. intros _.
  apply conserva_mret.
Qed.

Lemma alcanzable_ejecutar (guion : list (string * sentencia)) (d : DB) :
  alcanzable d → alcanzable (ejecutar guion d).
Proof.
  revert d. induction guion as [|[h q] guion IH]; intros d Hd; [done|].
  apply IH. by constructor.
Qed.

(** The statements behind [d_boletin], with the day of each. *)
Lemma d_boletin_guion :
  d_boletin
  = ejecutar [("2024-03-01", INSERT_alumnos "Ana" 12 "6A");
              ("2024-03-01", INSERT_materias "Math" "Algebra");
              ("2024-03-01", INSERT_materias "Art" "Drawing");
              ("2024-03-01", DELETE_asignaciones 1);
              ("2024-03-01", INSERT_asignaciones 1 1);
              ("2024-03-01", INSERT_asignaciones 1 2);
              ("2024-03-01", INSERT_calificaciones 1 1 8);
              ("2024-03-05", INSERT_calificaciones 1 2 9);
              ("2024-03-09", INSERT_calificaciones 1 1 6)] init_db.
Proof. vm_compute. reflexivity. Qed.

(** X15. No handler can break the primary keys: started on a store that
    statements can reach from the fresh file, each of the handlers
    (register, update and delete a student, create and delete a subject,
    save a plan, enter a grade), whatever its inputs and whether or not
    it raises, ends on a store where the ids of every table are pairwise
    distinct and bounded by the table's counter. *)
Theorem manejadores_conservan_claves (e : estado) :
  alcanzable (escuela e) →
  (∀ nombre edad grado,
     claves_primarias (final (guardar_alumno nombre edad grado) e)) ∧
  (∀ nombre edad grado id,
     claves_primarias (final (actualizar_alumno nombre edad grado id) e)) ∧
  (∀ id, claves_primarias (final (borrar_alumno id) e)) ∧
  (∀ nombre desc, claves_primarias (final (crear_materia nombre desc) e)) ∧
  (∀ del, claves_primarias (final (eliminar_materia del) e)) ∧
  (∀ alumno nuevas,
     claves_primarias (final (asignar_materias alumno nuevas) e)) ∧
  (∀ alumno materia nota,
     claves_primarias (final (ingresar_nota alumno materia nota) e)).
Proof.
  intros He.
  pose proof conserva_query_unit as Hq.
  assert (Hborrar : ∀ id, conserva_alcanzable (borrar_alumno id)).
  { intros id. unfold borrar_alumno.
    repeat (apply conserva_bind; [apply conserva_run_query|intros _]).
    apply conserva_mret. }
  refine (conj _ (conj _ (conj _ (conj _ (conj _ (conj _ _))))));
    intros; apply alcanzable_claves_primarias; unfold final.
  - by apply Hq.
  - by apply Hq.
  - by apply Hborrar.
  - by apply Hq.
  - by apply conserva_eliminar_materia.
  - by apply conserva_asignar_materias.
  - by apply conserva_ingresar_nota.
Qed.

Lemma manejadores_conservan_claves_witness :
  let e := mk_estado d_boletin "2024-04-01" [] in
  (∀ nombre edad grado,
     claves_primarias (final (guardar_alumno nombre edad grado) e)) ∧
  (∀ nombre edad grado id,
     claves_primarias (final (actualizar_alumno nombre edad grado id) e)) ∧
  (∀ id, claves_primarias (final (borrar_alumno id) e)) ∧
  (∀ nombre desc, claves_primarias (final (crear_materia nombre desc) e)) ∧
  (∀ del, claves_primarias (final (eliminar_materia del) e)) ∧
  (∀ alumno nuevas,
     claves_primarias (final (asignar_materias alumno nuevas) e)) ∧
  (∀ alumno materia nota,
     claves_primarias (final (ingresar_nota alumno materia nota) e)).
Proof.
  apply (manejadores_conservan_claves (mk_estado d_boletin "2024-04-01" [])).
  cbn [escuela]. rewrite d_boletin_guion.
  apply alcanzable_ejecutar, alcanzable_init.
Defined.

(** ** The tab "Editar/Borrar"

    The decimal form of an integer holds no space, so the first space of
    a label ends the id: a label determines the id and the name. *)

Lemma pretty_N_go_sin_espacio (x : N) (s : string) :
  sin_espacio s → sin_espacio (pretty_N_go x s).
Proof.
  revert s. induction (N.lt_wf_0 x) as [x _ IH]; intros s Hs.
  assert (x = 0 ∨ 0 < x)%N as [->|Hx] by lia.
  - by rewrite pretty_N_go_0.
  - rewrite pretty_N_go_step by done. apply IH.
    { by apply N.div_lt. }
    split; [|done]. unfold pretty_N_char, espacio.
    by repeat case_match.
Qed.

Lemma pretty_Z_sin_espacio (z : Z) : sin_espacio (pretty z).
Proof.
  assert (HN : ∀ n : N, sin_espacio (pretty n)).
  { intros n. unfold pretty, pretty_N. case_decide.
    - by split.
    - by apply pretty_N_go_sin_espacio. }
  destruct z as [|p|p]; unfold pretty, pretty_Z.
  - by split.
  - apply HN.
  - split; [done|]. apply HN.
Qed.

Lemma app_espacio_inj (s1 s2 r1 r2 : string) :
  sin_espacio s1 → sin_espacio s2 →
  s1 +:+ String espacio r1 = s2 +:+ String espacio r2 →
  s1 = s2 ∧ r1 = r2.
Proof.
  revert s2. induction s1 as [|c s1 IH]; intros [|c2 s2] H1 H2 Heq;
    simpl in *.
  - by injection Heq as ->.
  - injection Heq as <- _. by destruct H2.
  - injection Heq as -> _. by destruct H1.
  - injection Heq as -> Heq. destruct H1 as [_ H1], H2 as [_ H2].
    by destruct (IH s2 H1 H2 Heq) as [-> ->].
Qed.

Lemma etiqueta_inj (i j : Z) (n m : string) :
  etiqueta i n = etiqueta j m → i = j ∧ n = m.
Proof.
  unfold etiqueta. intros Heq.
  apply app_espacio_inj in Heq as [Hp Hr]; try apply pretty_Z_sin_espacio.
  split; [by apply (inj pretty)|]. by simplify_eq.
Qed.

Lemma NoDup_fmap_elem_inj {A} (f : A → Z) (l : list A) (x y : A) :
  NoDup (f <$> l) → x ∈ l → y ∈ l → f x = f y → x = y.
Proof.
  intros Hnd Hx Hy Heq.
  assert (Hin : y ∈ filter (λ z, f z = f x) l)
    by (by apply list_elem_of_filter).
  rewrite (filter_eq_unique f l x Hnd Hx) in Hin.
  by apply list_elem_of_singleton in Hin.
Qed.

Lemma dict_comp_size (data : list (Z * string)) :
  NoDup (data.*2) → size (dict_comp data) = length data.
Proof.
  induction data as [|[i n] data IH] using rev_ind; [done|].
  rewrite fmap_app, dict_comp_snoc, length_app. simpl.
  intros Hnd. apply NoDup_app in Hnd as (Hnd & Hn & _).
  assert (Hnone : dict_comp data !! n = None).
  { destruct (dict_comp data !! n) as [v|] eqn:Hv; [|done].
    apply dict_comp_lookup in Hv. destruct (Hn n).
    - by apply (list_elem_of_fmap_2 snd _ (v, n)).
    - apply list_elem_of_here. }
  rewrite map_size_insert_None, IH by done. lia.
Qed.

Lemma opciones_alumnos (d : DB) :
  opciones (select_alumnos_id_nombre d)
  = dict_comp ((λ a, (al_id a, etiqueta (al_id a) (al_nombre a)))
               <$> alumnos d).
Proof.
  unfold opciones, select_alumnos_id_nombre.
  by rewrite <- list_fmap_compose.
Qed.

(** X16. The edit tab tells students apart even when they share a name.
    With distinct student ids the select box offers one label per
    student, the labels offered are exactly the labels [id - nombre] of
    the stored rows, the label of a stored student is mapped to that
    student's id and the row loaded for that id is that student's row;
    so "Actualizar" and "Borrar Alumno" under that label act on that
    student's id and the tab does not raise. *)
Theorem editar_borrar_por_etiqueta (a : alumno) (b : boton) (e : estado) :
  NoDup (al_id <$> alumnos (escuela e)) →
  a ∈ alumnos (escuela e) →
  let data := select_alumnos_id_nombre (escuela e) in
  size (opciones data) = length (alumnos (escuela e)) ∧
  (∀ seleccion,
     is_Some (opciones data !! seleccion) ↔
     ∃ a', a' ∈ alumnos (escuela e)
           ∧ seleccion = etiqueta (al_id a') (al_nombre a')) ∧
  opciones data !! etiqueta (al_id a) (al_nombre a) = Some (al_id a) ∧
  select_alumno (al_id a) (escuela e) = [a] ∧
  editar_borrar (etiqueta (al_id a) (al_nombre a)) b e
  = match b with
    | Actualizar new_nombre new_edad new_grado =>
        actualizar_alumno new_nombre new_edad new_grado (al_id a) e
    | Borrar_Alumno => borrar_alumno (al_id a) e
    | sin_pulsar => (e, inr ())
    end.
Proof.
  intros Hnd Ha data.
  assert (Hsize : size (opciones data) = length (alumnos (escuela e))).
  { unfold data. rewrite opciones_alumnos, dict_comp_size.
    - by rewrite length_fmap.
    - rewrite <- list_fmap_compose.
      apply NoDup_fmap_2_strong; [|by apply NoDup_fmap_1 in Hnd].
      intros x y Hx Hy Heq. apply etiqueta_inj in Heq as [Hid _].
      by apply (NoDup_fmap_elem_inj al_id (alumnos (escuela e))). }
  assert (Hkeys : ∀ seleccion,
            is_Some (opciones data !! seleccion) ↔
            ∃ a', a' ∈ alumnos (escuela e)
                  ∧ seleccion = etiqueta (al_id a') (al_nombre a')).
  { intros seleccion. unfold data.
    rewrite opciones_alumnos, dict_comp_fmap_clave, list_elem_of_fmap.
    split; intros (a' & H1 & H2); by exists a'. }
  assert (Hop : opciones data !! etiqueta (al_id a) (al_nombre a)
                = Some (al_id a)).
  { unfold data. rewrite opciones_alumnos.
    destruct (proj2 (dict_comp_fmap_clave al_id
                (λ x, etiqueta (al_id x) (al_nombre x))
                (alumnos (escuela e)) (etiqueta (al_id a) (al_nombre a))))
      as [v Hv].
    { by apply (list_elem_of_fmap_2
                  (λ x, etiqueta (al_id x) (al_nombre x))). }
    rewrite Hv. apply dict_comp_lookup in Hv.
    apply list_elem_of_fmap in Hv as (x & Heq & _).
    injection Heq as -> Heq. by apply etiqueta_inj in Heq as [<- _]. }
  assert (Hsel : select_alumno (al_id a) (escuela e) = [a])
    by (by apply filter_eq_unique).
  split; [done|]. split; [done|]. split; [done|]. split; [done|].
  unfold editar_borrar, mbind, M_bind, run_select. cbn beta iota.
  fold data. rewrite Hop.
  assert (Hdata : data ≠ []).
  { unfold data, select_alumnos_id_nombre. intros Hnil.
    apply fmap_nil_inv in Hnil. rewrite Hnil in Ha.
    by apply elem_of_nil in Ha. }
  destruct data as [|p l]; [done|].
  rewrite Hsel. by destruct b.
Qed.

Lemma editar_borrar_por_etiqueta_witness :
  let a := mk_alumno 1 "Ana" 12 "6A" in
  let e := e_ejemplo_materias in
  let data := select_alumnos_id_nombre (escuela e) in
  size (opciones data) = length (alumnos (escuela e)) ∧
  (∀ seleccion,
     is_Some (opciones data !! seleccion) ↔
     ∃ a', a' ∈ alumnos (escuela e)
           ∧ seleccion = etiqueta (al_id a') (al_nombre a')) ∧
  opciones data !! "1 - Ana" = Some 1 ∧
  select_alumno 1 (escuela e) = [a] ∧
  editar_borrar "1 - Ana" Borrar_Alumno e = borrar_alumno 1 e.
Proof.
  apply (editar_borrar_por_etiqueta (mk_alumno 1 "Ana" 12 "6A")
           Borrar_Alumno e_ejemplo_materias).
  - by_decide.
  - apply list_elem_of_here.
Defined.

(** ** The history table of the grade entry tab *)

Lemma dict_comp_clave (data : list (Z * string)) (n : string) :
  n ∈ data.*2 → is_Some (dict_comp data !! n).
Proof.
  intros Hn.
  assert (Heq : ∀ l : list (Z * string), l = (λ p, (p.1, p.2)) <$> l).
  { induction l as [|[i k] l IH]; [done|].
    rewrite fmap_cons. simpl. by f_equal. }
  rewrite (Heq data). by apply (dict_comp_fmap_clave fst snd).
Qed.

Lemma bind_uno {A B} (F : A → list B) (x : A) : [x] ≫= F = F x.
Proof. exact (app_nil_r (F x)). Qed.

Lemma select_historial_perm (s : Z) (d : DB) :
  select_historial s d
  ≡ₚ (c ← filter (λ c, ca_alumno_id c = s) (calificaciones d);
      m ← filter (λ m, ma_id m = ca_materia_id c) (materias d);
      [mk_nota_historial (ma_nombre m) (ca_nota c) (ca_fecha c)]).
Proof. unfold select_historial. apply ordenar_Permutation. Qed.

(** X17. The report and the history table list the same grades: for a
    student picked by name in a store with distinct student ids, the
    rows of the report query are, up to order, the rows of the history
    query with the picked name in the column Alumno. *)
Theorem boletin_e_historial (nombre : string) (id : Z) (d : DB) :
  NoDup (al_id <$> alumnos d) →
  dict_alumnos d !! nombre = Some id →
  select_boletin id d ≡ₚ fila_de nombre <$> select_historial id d.
Proof.
  intros Hnd Hid. apply dict_comp_lookup in Hid.
  apply list_elem_of_fmap in Hid as (a & Heq & Ha).
  injection Heq as -> ->.
  rewrite select_historial_perm. unfold select_boletin.
  rewrite ordenar_Permutation, fmap_bind.
  erewrite bind_ext_elem; [reflexivity|].
  intros c Hc. apply list_elem_of_filter in Hc as [Hc _].
  rewrite Hc, (filter_eq_unique al_id _ a Hnd Ha).
  rewrite bind_uno, fmap_bind.
  by apply bind_ext_elem.
Qed.

Lemma boletin_e_historial_witness :
  select_boletin 1 (escuela e_ejemplo_materias)
  ≡ₚ fila_de "Ana" <$> select_historial 1 (escuela e_ejemplo_materias).
Proof.
  apply (boletin_e_historial "Ana" 1 (escuela e_ejemplo_materias));
    by_decide.
Defined.

(** X18. A saved grade shows in the history after the rerun: with
    distinct subject ids, for a student and a subject offered by the two
    select boxes, "Guardar Nota" does not raise, the name still selects
    the same student, and that student's history is the previous one
    plus one row with the chosen subject name, the score entered and
    today's date; the history of every other student id is unchanged. *)
Theorem ingresar_nota_en_historial (alumno_calif materia_calif : string)
    (nota : float) (id : Z) (e : estado) :
  NoDup (ma_id <$> materias (escuela e)) →
  dict_alumnos (escuela e) !! alumno_calif = Some id →
  materia_calif ∈ (select_materias_asignadas id (escuela e)).*2 →
  let d := final (ingresar_nota alumno_calif materia_calif nota) e in
  resultado (ingresar_nota alumno_calif materia_calif nota) e = inr () ∧
  dict_alumnos d !! alumno_calif = Some id ∧
  select_historial id d
  ≡ₚ mk_nota_historial materia_calif nota (hoy e)
     :: select_historial id (escuela e) ∧
  (∀ otro, otro ≠ id →
     select_historial otro d = select_historial otro (escuela e)).
Proof.
  intros Hnd Hid Hmat d. unfold d, final, resultado.
  rewrite ingresar_nota_unfold.
  destruct (alumnos (escuela e)) as [|a0 l0] eqn:Hal.
  { unfold dict_alumnos, select_alumnos_id_nombre in Hid.
    by rewrite Hal in Hid. }
  rewrite Hid.
  destruct (dict_comp_clave _ _ Hmat) as [id_mat Hl].
  destruct (select_materias_asignadas id (escuela e)) as [|pm lm] eqn:Hsel.
  { by apply elem_of_nil in Hmat. }
  rewrite Hl. apply dict_comp_lookup in Hl. rewrite <- Hsel in Hl.
  apply select_materias_asignadas_elem in Hl
    as (m & _ & Hm & _ & _ & _ & -> & ->).
  unfold guardar_nota, mbind, M_bind, run_query, mret, M_ret.
  cbn [fst snd escuela execute].
  split; [done|]. split.
  { exact Hid. }
  split.
  - rewrite !select_historial_perm. cbn [calificaciones materias].
    rewrite filter_app, bind_app, filter_cons, decide_True by done.
    rewrite filter_nil, bind_uno.
    cbn [ca_materia_id ca_nota ca_fecha].
    rewrite (filter_eq_unique ma_id _ m Hnd Hm), bind_uno.
    symmetry. apply Permutation_cons_append.
  - intros otro Hotro. unfold select_historial.
    cbn [calificaciones materias].
    rewrite filter_app, filter_cons, decide_False by (simpl; congruence).
    by rewrite filter_nil, app_nil_r.
Qed.

Lemma ingresar_nota_en_historial_witness :
  let e := e_ejemplo_materias in
  let d := final (ingresar_nota "Ana" "Art" 7%float) e in
  resultado (ingresar_nota "Ana" "Art" 7%float) e = inr () ∧
  dict_alumnos d !! "Ana" = Some 1 ∧
  select_historial 1 d
  ≡ₚ mk_nota_historial "Art" 7%float "2024-03-02"
     :: select_historial 1 (escuela e) ∧
  (∀ otro, otro ≠ 1 →
     select_historial otro d = select_historial otro (escuela e)).
Proof.
  apply (ingresar_nota_en_historial "Ana" "Art" 7%float 1
           e_ejemplo_materias);
    by_decide.
Defined.
